(** * deadman-webui: the monitoring-state engine

    A shallow embedding of [deadman-webui.py]: the per-host rolling window
    ([HostMonitor]), the log reader ([LogParser]) and the ordering of the rows
    served by [api_monitors], together with the properties of the engine.

    Conventions of the embedding.
    - A Python [float] is a binary64 number: Rocq's primitive [float], with
      [PrimFloat.eqb] and [PrimFloat.ltb] for [==] and [<] (IEEE comparisons,
      so [-0.0 == 0] holds and [nan] compares false with everything).
    - A [datetime] is naive or aware: its wall-clock time in microseconds
      since an epoch and, when it is aware, its UTC offset; a [timedelta] is
      a number of microseconds. Subtracting a naive and an aware [datetime]
      raises [TypeError].
    - A Python [int] is a [Z].
    - [collections.deque(maxlen=n)] is a list, oldest element first.
    - A [dict] is an association list in insertion order with unique keys.
    - An object mutated in place is passed in and returned. *)

From Stdlib Require Import String Ascii ZArith QArith Qabs List Permutation Floats Lia Bool.
Import ListNotations.

Local Open Scope Z_scope.

(** ** Python values *)

(** A [datetime] object: the wall-clock time [t] in microseconds since an
    epoch; an aware one also has its UTC offset, in microseconds.
    [datetime.now()] is naive; [datetime.fromisoformat] gives an aware
    datetime for a text that ends with a UTC offset. *)
Inductive datetime : Type :=
| Naive (t : Z)
| Aware (t : Z) (utcoffset : Z).

(** A number of microseconds written where a [datetime] is expected is
    the naive datetime of that time. *)
Coercion Naive : Z >-> datetime.

Definition timedelta := Z.

(** The outcome of a call that returns a value or raises [TypeError]. *)
Inductive outcome (A : Type) : Type :=
| Returns (a : A)
| RaisesTypeError.
Arguments Returns {A} a.
Arguments RaisesTypeError {A}.

(** [a - b] on two [datetime] objects: the difference of the wall-clock
    times of two naive ones, the difference of the instants of two aware
    ones, and a [TypeError] for a naive and an aware one. *)
Definition datetime_sub (a b : datetime) : outcome timedelta :=
  match a, b with
  | Naive ta, Naive tb => Returns (ta - tb)
  | Aware ta oa, Aware tb ob => Returns ((ta - oa) - (tb - ob))
  | Naive _, Aware _ _ => RaisesTypeError
  | Aware _ _, Naive _ => RaisesTypeError
  end.

(** [timedelta(seconds=s)] *)
Definition timedelta_seconds (s : Z) : timedelta := s * 1000000.

(** [x is not None] *)
Definition is_not_None {A : Type} (x : option A) : bool :=
  match x with
  | Some _ => true
  | None => false
  end.

(** [float(n)] for a Python [int] [n]; exact for [0 <= n < 2^53]. *)
Definition float_of_int (n : Z) : float := PrimFloat.of_uint63 (Uint63.of_Z n).

(** ** [collections.deque] with a maximal length *)

Section Deque.
Context {A : Type}.

(** [d.append(x)]: the element is added on the right and, when the deque
    is then longer than [maxlen], one element is dropped on the left. *)
Definition deque_append (maxlen : nat) (d : list A) (x : A) : list A :=
  let d' := d ++ [x] in
  if (maxlen <? length d')%nat then tl d' else d'.

(** The [n] last elements of [l]. *)
Definition lastn (n : nat) (l : list A) : list A :=
  skipn (length l - n) l.

(** [l[start:]] for a Python list: a negative [start] counts from the end,
    and the result is clipped to the list. *)
Definition py_slice_from (start : Z) (l : list A) : list A :=
  let len := Z.of_nat (length l) in
  let start' := if start <? 0 then Z.max 0 (start + len) else Z.min start len in
  skipn (Z.to_nat start') l.
End Deque.

(** ** [class HostMonitor] *)

(** One element of [HostMonitor.history]: the dict built in
    [add_measurement]. *)
Record Entry : Type := mkEntry {
  timestamp : datetime;
  current : float;
  average : float;
  sequence : Z;
  is_loss : bool
}.

Record HostMonitor : Type := mkHostMonitor {
  name : string;
  address : string;
  history : list Entry;
  last_current : float;
  last_average : float;
  last_sequence : Z;
  last_update : option datetime;
  prev_current : option float;
  prev_average : option float
}.

(** [deque(maxlen=600)] *)
Definition HISTORY_MAXLEN : nat := 600.

(** [HostMonitor.__init__] *)
Definition HostMonitor_init (name address : string) : HostMonitor :=
  {| name := name;
     address := address;
     history := [];
     last_current := 0%float;
     last_average := 0%float;
     last_sequence := 0;
     last_update := None;
     prev_current := None;
     prev_average := None |}.

(** The loss test of [add_measurement]; the comparisons with the previous
    values are only evaluated when these are not [None]. *)
Definition loss_check (self : HostMonitor) (cur avg : float) : bool :=
  PrimFloat.eqb cur 0 ||
  (is_not_None (prev_current self) &&
   (is_not_None (prev_average self) &&
    match prev_current self, prev_average self with
    | Some pc, Some pa =>
        PrimFloat.eqb cur pc && (PrimFloat.eqb avg pa && PrimFloat.ltb 0 cur)
    | _, _ => false
    end)).

(** [HostMonitor.add_measurement] *)
Definition add_measurement (self : HostMonitor) (cur avg : float)
    (seq : Z) (ts : datetime) : HostMonitor :=
  let loss := loss_check self cur avg in
  {| name := name self;
     address := address self;
     history :=
       deque_append HISTORY_MAXLEN (history self)
         {| timestamp := ts; current := cur; average := avg;
            sequence := seq; is_loss := loss |};
     last_current := cur;
     last_average := avg;
     last_sequence := seq;
     last_update := Some ts;
     prev_current := Some cur;
     prev_average := Some avg |}.

(** [sum(1 for h in self.history if h['is_loss'])] *)
Definition lost_measurements (h : list Entry) : Z :=
  fold_left (fun acc e => if is_loss e then acc + 1 else acc) h 0.

(** [HostMonitor.get_loss_rate]; the true division of two small integers is
    the binary64 division of their conversions. *)
Definition get_loss_rate (self : HostMonitor) : float :=
  match history self with
  | [] => 0%float
  | _ :: _ =>
      let total_measurements := Z.of_nat (length (history self)) in
      let lost := lost_measurements (history self) in
      PrimFloat.mul
        (PrimFloat.div (float_of_int lost) (float_of_int total_measurements))
        100%float
  end.

(** [HostMonitor.get_sparkline_data] *)
Definition get_sparkline_data (self : HostMonitor) (time_range : Z) : list Entry :=
  if Z.of_nat (length (history self)) <=? time_range
  then history self
  else py_slice_from (- time_range) (history self).

(** [HostMonitor.is_online] *)
Definition is_online (self : HostMonitor) : bool :=
  PrimFloat.ltb 0 (last_current self).

(** [HostMonitor.get_status_class]; [now] is the value of [datetime.now()],
    which is read, and subtracted from, only when there is a last update. *)
Definition get_status_class (self : HostMonitor) (now : datetime)
    : outcome string :=
  match last_update self with
  | None => Returns "unknown"%string
  | Some lu =>
      match datetime_sub now lu with
      | RaisesTypeError => RaisesTypeError
      | Returns elapsed =>
          if timedelta_seconds 5 <? elapsed then Returns "stale"%string
          else if is_online self then Returns "up"%string
               else Returns "down"%string
      end
  end.

(** A measurement as passed to [add_measurement]:
    [(current, average, sequence, timestamp)]. *)
Record Measurement : Type := mkMeasurement {
  m_current : float;
  m_average : float;
  m_sequence : Z;
  m_timestamp : datetime
}.

Definition add (self : HostMonitor) (m : Measurement) : HostMonitor :=
  add_measurement self (m_current m) (m_average m) (m_sequence m) (m_timestamp m).

(** A sequence of calls of [add_measurement] on one monitor. *)
Definition feed (self : HostMonitor) (ms : list Measurement) : HostMonitor :=
  fold_left add ms self.

(** The entry that [add_measurement] stores for a measurement. *)
Definition entry_of (self : HostMonitor) (m : Measurement) : Entry :=
  {| timestamp := m_timestamp m; current := m_current m;
     average := m_average m; sequence := m_sequence m;
     is_loss := loss_check self (m_current m) (m_average m) |}.

(** The measurement an entry was made from. *)
Definition measurement_of (e : Entry) : Measurement :=
  {| m_current := current e; m_average := average e;
     m_sequence := sequence e; m_timestamp := timestamp e |}.

(** ** Strings, dictionaries and exceptions *)

(** A [str] is a [string]; [str.isspace] on one character, for the code
    points below 256. *)
Definition isspace (c : ascii) : bool :=
  let n := nat_of_ascii c in
  (((9 <=? n) && (n <=? 13)) || ((28 <=? n) && (n <=? 32)) ||
   (n =? 133) || (n =? 160))%nat.

(** The truth value of a [str]: it is not empty. *)
Definition str_truthy (s : string) : bool :=
  match s with
  | EmptyString => false
  | String _ _ => true
  end.

Fixpoint lstrip (s : string) : string :=
  match s with
  | EmptyString => EmptyString
  | String c s' => if isspace c then lstrip s' else s
  end.

Definition str_reverse (s : string) : string :=
  string_of_list_ascii (rev (list_ascii_of_string s)).

(** [s.strip()] *)
Definition strip (s : string) : string :=
  str_reverse (lstrip (str_reverse (lstrip s))).

(** [s.split()] without argument: the maximal runs of characters that are
    not white space; [word] is the run being read. *)
Fixpoint split_from (word s : string) : list string :=
  match s with
  | EmptyString => if str_truthy word then [word] else []
  | String c s' =>
      if isspace c
      then (if str_truthy word then word :: split_from EmptyString s'
            else split_from EmptyString s')
      else split_from (word ++ String c EmptyString) s'
  end.

Definition split (s : string) : list string := split_from EmptyString s.

(** A [dict] with [str] keys, in insertion order. *)
Definition dict (V : Type) : Type := list (string * V).

Section Dict.
Context {V : Type}.

(** [d.get(k)] *)
Fixpoint dict_get (d : dict V) (k : string) : option V :=
  match d with
  | [] => None
  | (k', v) :: d' => if String.eqb k k' then Some v else dict_get d' k
  end.

(** [k in d] *)
Definition dict_contains (d : dict V) (k : string) : bool :=
  is_not_None (dict_get d k).

(** [d[k] = v]: an existing key keeps its place, a new one goes last. *)
Fixpoint dict_set (d : dict V) (k : string) (v : V) : dict V :=
  match d with
  | [] => [(k, v)]
  | (k', v') :: d' =>
      if String.eqb k k' then (k', v) :: d' else (k', v') :: dict_set d' k v
  end.

Definition dict_keys (d : dict V) : list string := map fst d.
End Dict.

(** [k in l] for a list of [str]. *)
Definition list_contains (l : list string) (k : string) : bool :=
  existsb (String.eqb k) l.

(** The exceptions the record parser can raise. *)
Inductive exn : Type :=
| ValueError
| IndexError.

Inductive result (A : Type) : Type :=
| Ok (a : A)
| Raise (e : exn).
Arguments Ok {A} a.
Arguments Raise {A} e.

Definition bind {A B : Type} (r : result A) (k : A -> result B) : result B :=
  match r with
  | Ok a => k a
  | Raise e => Raise e
  end.

Notation "x <- r ;; k" := (bind r (fun x => k))
  (at level 61, r at next level, right associativity).

(** [l[i]] *)
Definition getitem {A : Type} (l : list A) (i : nat) : result A :=
  match nth_error l i with
  | Some a => Ok a
  | None => Raise IndexError
  end.

(** A library parser that raises [ValueError] on a text it cannot read. *)
Definition or_ValueError {A : Type} (o : option A) : result A :=
  match o with
  | Some a => Ok a
  | None => Raise ValueError
  end.

(** ** [class DeadmanConfig] *)

Record DeadmanConfig : Type := mkDeadmanConfig {
  targets : dict string;
  target_order : list string
}.

(** ** [class LogParser] *)

(** One element of the list returned by [parse_log_file]. *)
Record LogEntry : Type := mkLogEntry {
  le_timestamp : datetime;
  le_current : float;
  le_average : float;
  le_count : Z;
  le_is_loss : bool
}.

(** The content of [log_dir] when it is read: [None] when the directory does
    not exist, else its files in the order of [iterdir], each with its lines. *)
Definition Directory : Type := option (dict (list string)).

Record LogParser : Type := mkLogParser {
  monitors : dict HostMonitor
}.

(** [LogParser.__init__] *)
Definition LogParser_init : LogParser := {| monitors := [] |}.

(** [LogParser.get_available_logs] *)
Definition get_available_logs (dir : Directory) : list string :=
  match dir with
  | None => []
  | Some files => map fst files
  end.

(** [LogParser.get_all_monitors] *)
Definition get_all_monitors (self : LogParser) : dict HostMonitor :=
  monitors self.

(** The parsers of the Python library that [parse_log_file] calls:
    [datetime.fromisoformat], [float] and [int] on a [str]; [None] stands
    for a raised [ValueError]. *)
Class Parsers : Type := {
  fromisoformat : string -> option datetime;
  py_float : string -> option float;
  py_int : string -> option Z
}.

Section Parsing.
Context `{Parsers}.

(** The body of the [try] of [parse_log_file], for the fields of one
    line. *)
Definition parse_record (parts : list string) : result LogEntry :=
  let timestamp_str :=
    (nth 0 parts EmptyString ++ " " ++ nth 1 parts EmptyString)%string in
  ts <- or_ValueError (fromisoformat timestamp_str) ;;
  p2 <- getitem parts 2 ;;
  current_value <- or_ValueError (py_float p2) ;;
  p3 <- getitem parts 3 ;;
  average_value <- or_ValueError (py_float p3) ;;
  p4 <- getitem parts 4 ;;
  count <- or_ValueError (py_int p4) ;;
  Ok {| le_timestamp := ts;
        le_current := current_value;
        le_average := average_value;
        le_count := count;
        le_is_loss := PrimFloat.eqb current_value 0 |}.

(** One turn of the loop over [recent_lines]. *)
Definition parse_line (entries : list LogEntry) (line : string) : list LogEntry :=
  let line := strip line in
  if str_truthy line then
    let parts := split line in
    if (4 <=? length parts)%nat then
      match parse_record parts with
      | Ok e => entries ++ [e]
      | Raise ValueError => entries
      | Raise IndexError => entries
      end
    else entries
  else entries.

Definition parse_lines (recent_lines : list string) : list LogEntry :=
  fold_left parse_line recent_lines [].

(** [LogParser.parse_log_file] *)
Definition parse_log_file (dir : Directory) (log_name : string)
    (tail_lines : Z) : list LogEntry :=
  match dir with
  | None => []
  | Some files =>
      match dict_get files log_name with
      | None => []
      | Some lines =>
          let recent_lines :=
            if tail_lines <? Z.of_nat (length lines)
            then py_slice_from (- tail_lines) lines
            else lines in
          parse_lines recent_lines
      end
  end.

(** The call of [add_measurement] in the loop of [update_monitor]. *)
Definition add_entry (monitor : HostMonitor) (entry : LogEntry) : HostMonitor :=
  add_measurement monitor (le_current entry) (le_average entry)
    (le_count entry) (le_timestamp entry).

Definition set_address (monitor : HostMonitor) (a : string) : HostMonitor :=
  {| name := name monitor;
     address := a;
     history := history monitor;
     last_current := last_current monitor;
     last_average := last_average monitor;
     last_sequence := last_sequence monitor;
     last_update := last_update monitor;
     prev_current := prev_current monitor;
     prev_average := prev_average monitor |}.

(** [LogParser.update_monitor]; the monitor is changed in place, which is
    writing it back under its key. *)
Definition update_monitor (self : LogParser) (dir : Directory)
    (log_name : string) (address : option string) : LogParser :=
  let fresh :=
    HostMonitor_init log_name
      match address with
      | Some a => if str_truthy a then a else "unknown"%string
      | None => "unknown"%string
      end in
  let monitors1 :=
    if dict_contains (monitors self) log_name then monitors self
    else dict_set (monitors self) log_name fresh in
  let monitor :=
    match dict_get monitors1 log_name with
    | Some m => m
    | None => fresh
    end in
  let monitor :=
    match address with
    | Some a => if str_truthy a then set_address monitor a else monitor
    | None => monitor
    end in
  let entries := parse_log_file dir log_name 600 in
  {| monitors := dict_set monitors1 log_name (fold_left add_entry entries monitor) |}.

(** [LogParser.update_all_monitors] *)
Definition update_all_monitors (self : LogParser) (dir : Directory)
    (config_targets : dict string) : LogParser :=
  fold_left
    (fun self log_name =>
       let address :=
         match dict_get config_targets log_name with
         | Some a => a
         | None => "unknown"%string
         end in
       update_monitor self dir log_name (Some address))
    (get_available_logs dir) self.

(** ** The route [/api/monitors] *)

(** One element of [monitor_list]; [r_status] is the outcome of the call
    of [get_status_class] made for the row: where it is a [TypeError], the
    request fails with it. *)
Record MonitorRow : Type := mkMonitorRow {
  r_name : string;
  r_address : string;
  r_status : outcome string;
  r_loss_rate : float;
  r_last_current : float;
  r_last_average : float;
  r_last_sequence : Z;
  r_last_update : option datetime;
  r_sparkline_data : list Entry
}.

Definition monitor_row (nm : string) (monitor : HostMonitor)
    (time_range : Z) (now : datetime) : MonitorRow :=
  {| r_name := nm;
     r_address := address monitor;
     r_status := get_status_class monitor now;
     r_loss_rate := get_loss_rate monitor;
     r_last_current := last_current monitor;
     r_last_average := last_average monitor;
     r_last_sequence := last_sequence monitor;
     r_last_update := last_update monitor;
     r_sparkline_data := get_sparkline_data monitor time_range |}.

(** The part of [api_monitors] that fills [monitor_list]. *)
Definition monitor_list (config : option DeadmanConfig)
    (mons : dict HostMonitor) (time_range : Z) (now : datetime)
    : list MonitorRow :=
  let order :=
    match config with
    | Some c => target_order c
    | None => []
    end in
  if is_not_None config && negb (Nat.eqb (length order) 0) then
    let in_config :=
      fold_left
        (fun acc nm =>
           match dict_get mons nm with
           | Some monitor => acc ++ [monitor_row nm monitor time_range now]
           | None => acc
           end)
        order [] in
    fold_left
      (fun acc item =>
         if negb (list_contains order (fst item))
         then acc ++ [monitor_row (fst item) (snd item) time_range now]
         else acc)
      mons in_config
  else
    fold_left
      (fun acc item =>
         acc ++ [monitor_row (fst item) (snd item) time_range now])
      mons [].

Inductive Response : Type :=
| JsonError (msg : string)
| JsonRows (rows : list MonitorRow).

(** [api_monitors]: the parser after the refresh, and the answer; the rows
    are listed as they are built, and the request fails when the status of
    one of them is a [TypeError]. *)
Definition api_monitors (config : option DeadmanConfig)
    (log_parser : option LogParser) (dir : Directory)
    (time_range : Z) (now : datetime) : option LogParser * Response :=
  match log_parser with
  | None => (None, JsonError "Log parser not initialized")
  | Some lp =>
      let config_targets :=
        match config with
        | Some c => targets c
        | None => []
        end in
      let lp' := update_all_monitors lp dir config_targets in
      (Some lp',
       JsonRows (monitor_list config (get_all_monitors lp') time_range now))
  end.
End Parsing.

(** ** Specification-side definitions *)

(** The loss rule as the specification words it: rule 1, else rule 2, else
    no loss. *)
Definition loss_rule (prev_cur prev_avg : option float) (cur avg : float) : bool :=
  if PrimFloat.eqb cur 0 then true
  else
    match prev_cur, prev_avg with
    | Some pc, Some pa =>
        if PrimFloat.eqb cur pc && PrimFloat.eqb avg pa && PrimFloat.ltb 0 cur
        then true else false
    | _, _ => false
    end.

(** The entries a sequence of measurements adds, each with the loss mark it
    gets from the state it meets. *)
Fixpoint entries_from (self : HostMonitor) (ms : list Measurement) : list Entry :=
  match ms with
  | [] => []
  | m :: ms' => entry_of self m :: entries_from (add self m) ms'
  end.

(** The number of entries of a history that are marked as lost. *)
Definition count_loss (h : list Entry) : nat :=
  length (filter is_loss h).

(** The records of a history, without the loss marks. *)
Definition records (h : list Entry) : list Measurement :=
  map measurement_of h.

(** The measurement [update_monitor] makes of a parsed record. *)
Definition measurement_of_log (e : LogEntry) : Measurement :=
  {| m_current := le_current e; m_average := le_average e;
     m_sequence := le_count e; m_timestamp := le_timestamp e |}.

(** [n] measurements with [current = 1.0] and the sequence numbers
    [first], [first + 1], ...; average and time stamp are given by [avg] and
    [ts]. *)
Fixpoint numbered (avg : Z -> float) (ts : Z -> datetime) (first : Z) (n : nat)
    : list Measurement :=
  match n with
  | O => []
  | S k =>
      {| m_current := 1%float; m_average := avg first;
         m_sequence := first; m_timestamp := ts first |}
      :: numbered avg ts (first + 1) k
  end.

(** The integers [first], [first + 1], ..., [n] of them. *)
Fixpoint Zseq (first : Z) (n : nat) : list Z :=
  match n with
  | O => []
  | S k => first :: Zseq (first + 1) k
  end.

(** The rational a finite binary64 number stands for. *)
Definition float_value (f : float) : option Q :=
  match Prim2SF f with
  | S754_zero _ => Some (0 # 1)
  | S754_finite s m e =>
      let z := if s then Z.neg m else Z.pos m in
      Some (match e with
            | Z0 => z # 1
            | Zpos k => Z.shiftl z (Zpos k) # 1
            | Zneg k => z # Pos.shiftl 1 (Npos k)
            end)
  | S754_infinity _ => None
  | S754_nan => None
  end.

(** The loss rate as [get_loss_rate] computes it from the two counts. *)
Definition rate_of_counts (lost total : Z) : float :=
  PrimFloat.mul (PrimFloat.div (float_of_int lost) (float_of_int total)) 100%float.

(** [r] lies in [[0, 100]] and is within [2^-46] of [100 * lost / total]. *)
Definition rate_ok (r : float) (lost total : Z) : bool :=
  PrimFloat.leb 0 r && PrimFloat.leb r 100 &&
  match float_value r with
  | Some q =>
      Qle_bool (Qabs (q - ((100 * lost) # Z.to_pos total))) (1 # 70368744177664)
  | None => false
  end.

(** [rate_ok] for the counts [lost], [lost + 1], ..., [fuel] of them. *)
Fixpoint row_ok (fuel : nat) (lost total : Z) : bool :=
  match fuel with
  | O => true
  | S k =>
      rate_ok (rate_of_counts lost total) lost total && row_ok k (lost + 1) total
  end.

(** [row_ok] from 0 to [total], for [fuel] totals from [total] on; [n] is
    [total] as a [nat]. *)
Fixpoint rows_ok (fuel : nat) (total : Z) (n : nat) : bool :=
  match fuel with
  | O => true
  | S k => row_ok (S n) 0 total && rows_ok k (total + 1) (S n)
  end.

Section ParsingSpec.
Context `{Parsers}.

(** The record a line holds, as the specification reads a line: a time
    stamp in the first two fields, then current, average and count; [None]
    for a malformed line, one with fewer than five fields or with a time
    stamp or a number that does not parse. *)
Definition record_of_line (line : string) : option LogEntry :=
  match split (strip line) with
  | p0 :: p1 :: p2 :: p3 :: p4 :: _ =>
      match fromisoformat (p0 ++ " " ++ p1)%string,
            py_float p2, py_float p3, py_int p4 with
      | Some ts, Some cur, Some avg, Some n =>
          Some {| le_timestamp := ts; le_current := cur; le_average := avg;
                  le_count := n; le_is_loss := PrimFloat.eqb cur 0 |}
      | _, _, _, _ => None
      end
  | _ => None
  end.

(** The records of a batch of lines, malformed lines left out. *)
Definition records_of_lines (lines : list string) : list LogEntry :=
  flat_map
    (fun line =>
       match record_of_line line with
       | Some e => [e]
       | None => []
       end)
    lines.
End ParsingSpec.

(** The history of the monitor of [log_name], empty when there is none. *)
Definition history_of (self : LogParser) (log_name : string) : list Entry :=
  match dict_get (monitors self) log_name with
  | Some m => history m
  | None => []
  end.



(** ** Sample parsers and data for the examples *)

Definition digit_of (c : ascii) : option Z :=
  let n := nat_of_ascii c in
  if ((48 <=? n) && (n <=? 57))%nat then Some (Z.of_nat n - 48) else None.

Fixpoint decimal_from (acc : Z) (s : string) : option Z :=
  match s with
  | EmptyString => Some acc
  | String c s' =>
      match digit_of c with
      | Some d => decimal_from (10 * acc + d) s'
      | None => None
      end
  end.

(** An unsigned decimal numeral. *)
Definition sample_int (s : string) : option Z :=
  if str_truthy s then decimal_from 0 s else None.

Definition sample_float (s : string) : option float :=
  option_map float_of_int (sample_int s).

(** Two numerals separated by one space: a day number and a second of the
    day. *)
Definition sample_fromisoformat (s : string) : option datetime :=
  match split s with
  | [d; t] =>
      match sample_int d, sample_int t with
      | Some d', Some t' => Some (Naive ((d' * 86400 + t') * 1000000))
      | _, _ => None
      end
  | _ => None
  end.

Definition sample_parsers : Parsers :=
  {| fromisoformat := sample_fromisoformat;
     py_float := sample_float;
     py_int := sample_int |}.

(** A directory with the logs of [B] and [C]; the second line of [B] has
    too few fields and the third a count that is not a number. *)
Definition sample_dir : Directory :=
  Some [ ("B", ["19000 1 5 5 1"; "19000 2 5 5"; "19000 3 5 5 x";
                "19000 4 6 6 4"]);
         ("C", ["19000 1 0 0 1"]) ]%string.

Definition sample_config : DeadmanConfig :=
  {| targets := [("A", "1.1.1.1"); ("B", "2.2.2.2")]%string;
     target_order := ["A"; "B"]%string |}.

Definition sample_measurement (cur avg : float) (seq : Z) : Measurement :=
  {| m_current := cur; m_average := avg; m_sequence := seq; m_timestamp := seq |}.

(** ** [DeadmanConfig._parse_config] *)

(** The tab character. *)
Definition TAB : ascii := ascii_of_nat 9.

(** [c in s] for a one-character [c]. *)
Fixpoint str_contains_char (c : ascii) (s : string) : bool :=
  match s with
  | EmptyString => false
  | String c' s' => Ascii.eqb c c' || str_contains_char c s'
  end.

(** [s.split(sep)] for a one-character separator: [s] is cut at every
    separator and the empty pieces are kept; [word] is the piece being
    read. *)
Fixpoint split_on_from (sep : ascii) (word s : string) : list string :=
  match s with
  | EmptyString => [word]
  | String c s' =>
      if Ascii.eqb c sep
      then word :: split_on_from sep EmptyString s'
      else split_on_from sep (word ++ String c EmptyString) s'
  end.

Definition split_on (sep : ascii) (s : string) : list string :=
  split_on_from sep EmptyString s.

(** One turn of the loop over the lines of the configuration file. *)
Definition parse_config_line (self : DeadmanConfig) (line : string) : DeadmanConfig :=
  let line := strip line in
  if str_truthy line && str_contains_char TAB line then
    let parts := split_on TAB line in
    if (2 <=? length parts)%nat then
      let nm := nth 0 parts EmptyString in
      let host := nth 1 parts EmptyString in
      {| targets := dict_set (targets self) nm host;
         target_order := target_order self ++ [nm] |}
    else self
  else self.

(** [DeadmanConfig.__init__] with [_parse_config]; [file] is the content of
    the file at [config_path], [None] when there is no such file. *)
Definition DeadmanConfig_init (file : option (list string)) : DeadmanConfig :=
  let empty := {| targets := []; target_order := [] |} in
  match file with
  | None => empty
  | Some lines => fold_left parse_config_line lines empty
  end.

(** ** The routes [/api/monitor/<target>] and [/api/stats] *)

Record MonitorDetail : Type := mkMonitorDetail {
  d_name : string;
  d_address : string;
  d_status : string;
  d_loss_rate : float;
  d_last_current : float;
  d_last_average : float;
  d_last_sequence : Z;
  d_last_update : option datetime;
  d_history : list Entry;
  d_history_count : Z
}.

(** A JSON answer with its HTTP status, or the [TypeError] the request
    fails with. *)
Inductive DetailResponse : Type :=
| DetailError (msg : string) (code : Z)
| DetailOk (d : MonitorDetail)
| DetailTypeError.

(** [api_monitor_detail] *)
Definition api_monitor_detail (log_parser : option LogParser) (target : string)
    (now : datetime) : DetailResponse :=
  match log_parser with
  | None => DetailError "Log parser not initialized" 200
  | Some lp =>
      let mons := get_all_monitors lp in
      match dict_get mons target with
      | None => DetailError ("Monitor " ++ target ++ " not found") 404
      | Some monitor =>
          let hist := get_sparkline_data monitor 180 in
          match get_status_class monitor now with
          | RaisesTypeError => DetailTypeError
          | Returns status =>
              DetailOk
                {| d_name := target;
                   d_address := address monitor;
                   d_status := status;
                   d_loss_rate := get_loss_rate monitor;
                   d_last_current := last_current monitor;
                   d_last_average := last_average monitor;
                   d_last_sequence := last_sequence monitor;
                   d_last_update := last_update monitor;
                   d_history := hist;
                   d_history_count := Z.of_nat (length hist) |}
          end
      end
  end.

(** [m.get_status_class()] when the [tick]-th reading of the clock is the
    next one: [datetime.now()] is read only for a monitor that has a last
    update; a reading of the clock is a naive datetime. *)
Definition status_at (clock : nat -> Z) (self : HostMonitor) (tick : nat)
    : outcome string * nat :=
  match last_update self with
  | None => (get_status_class self (Naive (clock tick)), tick)
  | Some _ => (get_status_class self (Naive (clock tick)), S tick)
  end.

(** One turn of the generator of
    [sum(1 for m in monitors.values() if m.get_status_class() == word)]:
    the count so far and the next clock reading, after the monitor of
    [item]; a [TypeError] ends the sum. *)
Definition count_step (clock : nat -> Z) (word : string)
    (acc : outcome (Z * nat)) (item : string * HostMonitor)
    : outcome (Z * nat) :=
  match acc with
  | RaisesTypeError => RaisesTypeError
  | Returns (n, t) =>
      match status_at clock (snd item) t with
      | (RaisesTypeError, _) => RaisesTypeError
      | (Returns status, t') =>
          Returns (if String.eqb status word then n + 1 else n, t')
      end
  end.

(** [sum(1 for m in monitors.values() if m.get_status_class() == word)],
    with the clock readings it uses. *)
Definition count_status (clock : nat -> Z) (word : string)
    (mons : dict HostMonitor) (tick : nat) : outcome (Z * nat) :=
  fold_left (count_step clock word) mons (Returns (0, tick)).

Record Stats : Type := mkStats {
  total_hosts : Z;
  up_hosts : Z;
  down_hosts : Z;
  stale_hosts : Z;
  unknown_hosts : Z;
  average_loss_rate : float
}.

(** The JSON answer, or the [TypeError] the request fails with. *)
Inductive StatsResponse : Type :=
| StatsError (msg : string)
| StatsOk (st : Stats)
| StatsTypeError.

(** [api_stats]; [float_sum] is the builtin [sum] on a sequence of floats
    (its rounding is the library's), and [clock] gives the successive
    readings of [datetime.now()]. *)
Definition api_stats (float_sum : list float -> float) (clock : nat -> Z)
    (log_parser : option LogParser) : StatsResponse :=
  match log_parser with
  | None => StatsError "Log parser not initialized"
  | Some lp =>
      let mons := get_all_monitors lp in
      let total := Z.of_nat (length mons) in
      match count_status clock "up" mons 0 with
      | RaisesTypeError => StatsTypeError
      | Returns (up, t1) =>
          match count_status clock "down" mons t1 with
          | RaisesTypeError => StatsTypeError
          | Returns (down, t2) =>
              match count_status clock "stale" mons t2 with
              | RaisesTypeError => StatsTypeError
              | Returns (stale, t3) =>
                  let unknown := total - up - down - stale in
                  let avg :=
                    match mons with
                    | [] => 0%float
                    | _ :: _ =>
                        PrimFloat.div
                          (float_sum
                             (map (fun item => get_loss_rate (snd item)) mons))
                          (float_of_int (Z.of_nat (length mons)))
                    end in
                  StatsOk
                    {| total_hosts := total;
                       up_hosts := up;
                       down_hosts := down;
                       stale_hosts := stale;
                       unknown_hosts := unknown;
                       average_loss_rate := avg |}
              end
          end
      end
  end.

(** ** Further specification-side definitions *)

(** [get_status_class] returns [word]. *)
Definition status_is (word : string) (self : HostMonitor) (now : datetime)
    : bool :=
  match get_status_class self now with
  | Returns status => String.eqb status word
  | RaisesTypeError => false
  end.

(** The number of monitors whose status at the clock reading [now] is
    [word]. *)
Definition count_with_status (now : Z) (word : string)
    (mons : dict HostMonitor) : Z :=
  Z.of_nat
    (length (filter (fun item => status_is word (snd item) (Naive now)) mons)).

(** The last update of a monitor, if any, is a naive datetime. *)
Definition naive_update (self : HostMonitor) : bool :=
  match last_update self with
  | Some (Aware _ _) => false
  | Some (Naive _) => true
  | None => true
  end.

(** What the registry keeps for the monitor stored under the key [k]. *)
Definition monitor_ok (k : string) (m : HostMonitor) : Prop :=
  name m = k /\
  str_truthy (address m) = true /\
  (length (history m) <= 600)%nat.

Definition parser_ok (lp : LogParser) : Prop :=
  NoDup (dict_keys (monitors lp)) /\
  Forall (fun item => monitor_ok (fst item) (snd item)) (monitors lp).

(** A refresh: the directory as it is read and the targets of the
    configuration. *)
Definition Refresh : Type := (Directory * dict string)%type.

(** The parser after a sequence of calls of [update_all_monitors]. *)
Definition run_refreshes `{Parsers} (rs : list Refresh) (self : LogParser)
    : LogParser :=
  fold_left (fun lp r => update_all_monitors lp (fst r) (snd r)) rs self.

(** The address of the monitor of [k], if there is one. *)
Definition address_of (lp : LogParser) (k : string) : option string :=
  option_map address (dict_get (monitors lp) k).

(** The address [update_monitor] leaves, from the address there was and
    the one it is given. *)
Definition address_after (old : option string) (given : option string) : string :=
  let kept :=
    match old with
    | Some a => a
    | None => "unknown"%string
    end in
  match given with
  | Some a => if str_truthy a then a else kept
  | None => kept
  end.

(** The address [update_all_monitors] passes for the log [k]. *)
Definition given_address (config_targets : dict string) (k : string)
    : option string :=
  Some match dict_get config_targets k with
       | Some a => a
       | None => "unknown"%string
       end.

(** The keys of a dict after the names [names] were seen in turn. *)
Definition first_seen (keys names : list string) : list string :=
  fold_left (fun ks n => if list_contains ks n then ks else ks ++ [n]) names keys.

(** A stripped line defines a target when it holds a tab. *)
Definition defines_target (line : string) : bool :=
  str_contains_char TAB (strip line).

(** The name and the host a line of the configuration file gives: the
    first two tab-separated fields of the stripped line. *)
Definition target_name (line : string) : string :=
  nth 0 (split_on TAB (strip line)) EmptyString.

Definition target_host (line : string) : string :=
  nth 1 (split_on TAB (strip line)) EmptyString.

(** [s] begins with a white space character. *)
Definition starts_with_space (s : string) : bool :=
  match s with
  | EmptyString => false
  | String c _ => isspace c
  end.

(** [rate_of_counts] is exactly 100 for [total] losses out of [total] and
    exactly 0 for none, for [fuel] totals from [total] on. *)
Fixpoint extremes_ok (fuel : nat) (total : Z) : bool :=
  match fuel with
  | O => true
  | S k =>
      PrimFloat.Leibniz.eqb (rate_of_counts total total) 100 &&
      PrimFloat.Leibniz.eqb (rate_of_counts 0 total) 0 &&
      extremes_ok k (total + 1)
  end.

(** The loss mark of a measurement that comes after [prev]. *)
Definition pair_loss (prev : option Measurement) (m : Measurement) : bool :=
  loss_rule (option_map m_current prev) (option_map m_average prev)
    (m_current m) (m_average m).

(** The loss marks of a sequence of measurements that comes after [prev]:
    each measurement is compared with the one before it. *)
Fixpoint loss_marks (prev : option Measurement) (ms : list Measurement)
    : list bool :=
  match ms with
  | [] => []
  | m :: ms' => pair_loss prev m :: loss_marks (Some m) ms'
  end.

(** The last measurement of a sequence, if any. *)
Definition last_measurement (ms : list Measurement) : option Measurement :=
  last (map Some ms) None.

(** ** Further sample data *)

(** The files of [sample_dir]. *)
Definition sample_files : dict (list string) :=
  match sample_dir with
  | Some files => files
  | None => []
  end.

(** The parser after one refresh from [sample_dir] with [sample_config]. *)
Definition sample_parser : LogParser :=
  update_all_monitors (H := sample_parsers) LogParser_init sample_dir
    (targets sample_config).

(** A parser whose one monitor got a sample with a time stamp that has a
    UTC offset of one hour. *)
Definition sample_offset_parser : LogParser :=
  {| monitors :=
       [ ("Z"%string,
          add_measurement (HostMonitor_init "Z" "unknown") 5 5 1
            (Aware 0 3600000000)) ] |}.

(** A hundred measurements: 29 zero readings, then 71 readings of [1.0]
    whose averages all differ. *)
Definition sample_29_of_100 : list Measurement :=
  repeat (sample_measurement 0 0 0) 29
  ++ numbered float_of_int (fun z => Naive z) 1 71.

(** A configuration line: a name, a tab, a host. *)
Definition sample_line (nm host : string) : string :=
  (nm ++ String TAB host)%string.

(** A configuration file that names [A] twice. *)
Definition sample_config_file : list string :=
  [ sample_line "A" "1.1.1.1"; "no target here"%string;
    sample_line "B" "2.2.2.2"; sample_line "A" "9.9.9.9" ].

(** * Properties *)

(** ** The bounded deque *)

Section DequeFacts.
Context {A : Type}.
Implicit Types (d l : list A) (x : A) (n : nat).

Lemma lastn_all n l : (length l <= n)%nat -> lastn n l = l.
Proof.
  intros Hle. unfold lastn.
  replace (length l - n)%nat with 0%nat by lia. reflexivity.
Qed.

Lemma lastn_length n l : length (lastn n l) = Nat.min n (length l).
Proof. unfold lastn. rewrite length_skipn. lia. Qed.

Lemma lastn_app_lastn n l l' : lastn n (lastn n l ++ l') = lastn n (l ++ l').
Proof.
  unfold lastn at 1 3.
  rewrite !skipn_app, !length_app, lastn_length.
  unfold lastn. rewrite skipn_skipn.
  destruct (Nat.le_gt_cases (length l) n) as [Hle | Hgt].
  - rewrite Nat.min_r by lia. f_equal; f_equal; lia.
  - rewrite Nat.min_l by lia. f_equal; f_equal; lia.
Qed.

Lemma deque_append_lastn n d x :
  (length d <= n)%nat -> deque_append n d x = lastn n (d ++ [x]).
Proof.
  intros Hle. unfold deque_append, lastn. cbv zeta.
  rewrite length_app. cbn [length].
  destruct (Nat.ltb_spec n (length d + 1)) as [Hlt | Hge].
  - replace (length d + 1 - n)%nat with 1%nat by lia. reflexivity.
  - replace (length d + 1 - n)%nat with 0%nat by lia. reflexivity.
Qed.

Lemma deque_append_full n d x :
  length d = n -> (0 < n)%nat -> deque_append n d x = tl d ++ [x].
Proof.
  intros Hlen Hpos. unfold deque_append. cbv zeta.
  rewrite length_app. cbn [length].
  destruct (Nat.ltb_spec n (length d + 1)) as [_ | Hge]; [| lia].
  destruct d as [| y d']; [cbn in Hlen; lia | reflexivity].
Qed.

Lemma deque_append_snoc n d x :
  (0 < n)%nat -> exists older, deque_append n d x = older ++ [x].
Proof.
  intros Hpos. unfold deque_append. cbv zeta.
  destruct (n <? length (d ++ [x]))%nat eqn:Hlt.
  - destruct d as [| y d'].
    + apply Nat.ltb_lt in Hlt. cbn in Hlt. lia.
    + exists d'. reflexivity.
  - exists d. reflexivity.
Qed.
End DequeFacts.

Lemma lastn_map {A B : Type} (f : A -> B) (n : nat) (l : list A) :
  lastn n (map f l) = map f (lastn n l).
Proof. unfold lastn. rewrite length_map. apply skipn_map. Qed.

(** ** The history of a monitor *)

Lemma add_history (self : HostMonitor) (m : Measurement) :
  history (add self m) = deque_append HISTORY_MAXLEN (history self) (entry_of self m).
Proof. reflexivity. Qed.

Lemma add_history_bounded (self : HostMonitor) (m : Measurement) :
  (length (history self) <= HISTORY_MAXLEN)%nat ->
  (length (history (add self m)) <= HISTORY_MAXLEN)%nat.
Proof.
  intros Hle. rewrite add_history, deque_append_lastn by exact Hle.
  rewrite lastn_length. lia.
Qed.

Lemma feed_history_bounded (ms : list Measurement) :
  forall self,
    (length (history self) <= HISTORY_MAXLEN)%nat ->
    (length (history (feed self ms)) <= HISTORY_MAXLEN)%nat.
Proof.
  induction ms as [| m ms' IH]; intros self Hle; cbn.
  - exact Hle.
  - apply IH, add_history_bounded, Hle.
Qed.

Lemma feed_history (ms : list Measurement) :
  forall self,
    (length (history self) <= HISTORY_MAXLEN)%nat ->
    history (feed self ms)
    = lastn HISTORY_MAXLEN (history self ++ entries_from self ms).
Proof.
  induction ms as [| m ms' IH]; intros self Hle; cbn [feed fold_left entries_from].
  - rewrite app_nil_r. symmetry. apply lastn_all, Hle.
  - change (fold_left add ms' (add self m)) with (feed (add self m) ms').
    rewrite IH by (apply add_history_bounded, Hle).
    rewrite add_history, deque_append_lastn by exact Hle.
    rewrite lastn_app_lastn, <- app_assoc. reflexivity.
Qed.

Lemma records_entries_from (ms : list Measurement) :
  forall self, records (entries_from self ms) = ms.
Proof.
  induction ms as [| m ms' IH]; intros self; cbn.
  - reflexivity.
  - unfold records in IH. rewrite IH. destruct m; reflexivity.
Qed.

Lemma init_history_bounded (nm addr : string) :
  (length (history (HostMonitor_init nm addr)) <= HISTORY_MAXLEN)%nat.
Proof. cbn. lia. Qed.

Lemma sequence_entries_numbered (avg : Z -> float) (ts : Z -> datetime) (n : nat) :
  forall self first,
    map sequence (entries_from self (numbered avg ts first n)) = Zseq first n.
Proof.
  induction n as [| k IH]; intros self first; cbn.
  - reflexivity.
  - rewrite IH. reflexivity.
Qed.

(** C2: a monitor built by any sequence of [add_measurement] calls never
    holds more than 600 entries; on a full history the call drops the oldest
    entry and stores the new one, without error; 601 calls with the sequence
    numbers 1..601 and [current = 1.0] leave the 600 entries numbered
    2..601, in order. *)
Theorem history_bounded_600 (nm addr : string) (ms : list Measurement) :
  let w := feed (HostMonitor_init nm addr) ms in
  (length (history w) <= 600)%nat /\
  (forall m,
     length (history w) = 600%nat ->
     history (add w m) = tl (history w) ++ [entry_of w m] /\
     length (history (add w m)) = 600%nat) /\
  (forall avg ts,
     let w601 := feed (HostMonitor_init nm addr) (numbered avg ts 1 601) in
     length (history w601) = 600%nat /\
     map sequence (history w601) = Zseq 2 600).
Proof.
  intros w. split; [| split].
  - apply (feed_history_bounded ms), init_history_bounded.
  - intros m Hfull. rewrite add_history.
    rewrite deque_append_full by (unfold HISTORY_MAXLEN; lia).
    split; [reflexivity |].
    rewrite length_app. cbn [length].
    destruct (history w); cbn in *; lia.
  - intros avg ts w601. subst w601.
    rewrite feed_history by apply init_history_bounded.
    cbn [history HostMonitor_init app]. split.
    + rewrite lastn_length.
      rewrite <- (length_map sequence), sequence_entries_numbered.
      vm_compute. reflexivity.
    + rewrite <- lastn_map, sequence_entries_numbered.
      vm_compute. reflexivity.
Qed.

Lemma history_bounded_600_witness :
  let w := feed (HostMonitor_init "h" "a")
             (numbered (fun _ => 1%float) (fun z => z) 1 600) in
  length (history w) = 600%nat /\
  history (add w (sample_measurement 2 2 601))
  = tl (history w) ++ [entry_of w (sample_measurement 2 2 601)].
Proof.
  intros w. split.
  - vm_compute. reflexivity.
  - apply (history_bounded_600 "h" "a"
             (numbered (fun _ => 1%float) (fun z => z) 1 600)).
    vm_compute. reflexivity.
Defined.

(** ** Loss detection *)

Lemma loss_check_rule (self : HostMonitor) (cur avg : float) :
  loss_check self cur avg
  = loss_rule (prev_current self) (prev_average self) cur avg.
Proof.
  unfold loss_check, loss_rule.
  destruct (PrimFloat.eqb cur 0); [reflexivity |].
  destruct (prev_current self) as [pc |], (prev_average self) as [pa |];
    cbn; try reflexivity.
  destruct (PrimFloat.eqb cur pc), (PrimFloat.eqb avg pa), (PrimFloat.ltb 0 cur);
    reflexivity.
Qed.

Lemma loss_check_zero (self : HostMonitor) (cur avg : float) :
  PrimFloat.eqb cur 0 = true -> loss_check self cur avg = true.
Proof. intros Hz. unfold loss_check. rewrite Hz. reflexivity. Qed.

(** C1: the entry that [add_measurement] appends carries the arguments and
    the loss mark given by the rules in order (zero reading; else repeated
    non-zero reading; else no loss); a zero reading is a loss whatever the
    state; the readings (5,5), (5,5), (6,6) on a new monitor are marked
    [false; true; false]. *)
Theorem add_measurement_is_loss (self : HostMonitor) (cur avg : float)
    (seq : Z) (ts : datetime) :
  (exists older,
     history (add_measurement self cur avg seq ts)
     = older ++ [ {| timestamp := ts; current := cur; average := avg;
                     sequence := seq;
                     is_loss := loss_rule (prev_current self) (prev_average self)
                                  cur avg |} ]) /\
  (PrimFloat.eqb cur 0 = true ->
   exists older,
     history (add_measurement self cur avg seq ts)
     = older ++ [ {| timestamp := ts; current := cur; average := avg;
                     sequence := seq; is_loss := true |} ]) /\
  (forall nm addr s1 s2 s3 t1 t2 t3,
     map is_loss
       (history
          (feed (HostMonitor_init nm addr)
             [ mkMeasurement 5 5 s1 t1; mkMeasurement 5 5 s2 t2;
               mkMeasurement 6 6 s3 t3 ]))
     = [false; true; false]).
Proof.
  split; [| split].
  - unfold add_measurement. cbn [history]. rewrite loss_check_rule.
    apply deque_append_snoc. unfold HISTORY_MAXLEN. lia.
  - intros Hz. unfold add_measurement. cbn [history].
    rewrite (loss_check_zero self cur avg Hz).
    apply deque_append_snoc. unfold HISTORY_MAXLEN. lia.
  - intros. reflexivity.
Qed.

Lemma add_measurement_is_loss_witness :
  PrimFloat.eqb (-0)%float 0 = true /\
  exists older,
    history (add_measurement
               (add_measurement (HostMonitor_init "h" "a") 5 5 1 10)
               (-0)%float 7 2 11)
    = older ++ [ {| timestamp := 11; current := (-0)%float; average := 7;
                    sequence := 2; is_loss := true |} ].
Proof.
  split.
  - reflexivity.
  - apply (add_measurement_is_loss
             (add_measurement (HostMonitor_init "h" "a") 5 5 1 10)
             (-0)%float 7 2 11).
    reflexivity.
Defined.

(** C6: whatever the loss mark, [add_measurement] leaves the last values and
    the previous values equal to its arguments. *)
Theorem add_measurement_updates (self : HostMonitor) (cur avg : float)
    (seq : Z) (ts : datetime) :
  let w := add_measurement self cur avg seq ts in
  last_current w = cur /\
  last_average w = avg /\
  last_sequence w = seq /\
  last_update w = Some ts /\
  prev_current w = Some cur /\
  prev_average w = Some avg.
Proof. cbv zeta. unfold add_measurement. cbn. repeat split. Qed.

(** ** Status *)

Lemma feed_snoc (self : HostMonitor) (ms : list Measurement) (m : Measurement) :
  feed self (ms ++ [m]) = add (feed self ms) m.
Proof. unfold feed. rewrite fold_left_app. reflexivity. Qed.

Lemma feed_last_update (nm addr : string) (ms : list Measurement) :
  last_update (feed (HostMonitor_init nm addr) ms) = None <-> ms = [].
Proof.
  split.
  - destruct ms as [| m ms'] using rev_ind; [reflexivity |].
    rewrite feed_snoc. cbn. discriminate.
  - intros ->. reflexivity.
Qed.

Lemma get_status_class_aware (self : HostMonitor) (t utcoffset now : Z) :
  last_update self = Some (Aware t utcoffset) ->
  get_status_class self (Naive now) = RaisesTypeError.
Proof. intros Hlu. unfold get_status_class. rewrite Hlu. reflexivity. Qed.

Lemma get_status_class_naive_update (self : HostMonitor) (t now : Z) :
  last_update self = Some (Naive t) ->
  get_status_class self (Naive now)
  = if 5 * 1000000 <? now - t then Returns "stale"%string
    else if PrimFloat.ltb 0 (last_current self) then Returns "up"%string
         else Returns "down"%string.
Proof. intros Hlu. unfold get_status_class. rewrite Hlu. reflexivity. Qed.

(** C3: for a monitor whose last sample carries a time stamp with a UTC
    offset, as [fromisoformat] reads it from a log line such as
    [2024-01-01 12:00:00+00:00 5.0 5.0 1], the subtraction from the naive
    [datetime.now()] raises [TypeError]: [get_status_class] returns none of
    the four words, whatever the reading and the instant of the query. *)
Theorem get_status_class_offset_raises (self : HostMonitor) (cur avg : float)
    (seq t utcoffset now : Z) :
  get_status_class (add_measurement self cur avg seq (Aware t utcoffset))
    (Naive now) = RaisesTypeError /\
  (forall word,
     get_status_class (add_measurement self cur avg seq (Aware t utcoffset))
       (Naive now) <> Returns word).
Proof.
  assert (Hraise : get_status_class
                     (add_measurement self cur avg seq (Aware t utcoffset))
                     (Naive now) = RaisesTypeError)
    by (apply (get_status_class_aware _ t utcoffset); reflexivity).
  split; [exact Hraise |].
  intros word. rewrite Hraise. discriminate.
Qed.

(** X24: the status of a monitor fed by [add_measurement], at the clock
    reading [now]: [unknown] when it never got a sample; when the last
    sample has a naive time stamp, [stale] if more than 5 seconds have
    passed since, whatever the reading, else [up] for a positive last
    reading and [down] otherwise; a [TypeError] when the last sample has a
    time stamp with a UTC offset; so a status that is returned is one of
    the four words. *)
Theorem get_status_class_naive (nm addr : string) (ms : list Measurement)
    (now : Z) :
  let w := feed (HostMonitor_init nm addr) ms in
  (ms = [] -> get_status_class w (Naive now) = Returns "unknown"%string) /\
  (forall ms' m t,
     ms = ms' ++ [m] ->
     m_timestamp m = Naive t ->
     (5 * 1000000 < now - t ->
      get_status_class w (Naive now) = Returns "stale"%string) /\
     (now - t <= 5 * 1000000 ->
      PrimFloat.ltb 0 (m_current m) = true ->
      get_status_class w (Naive now) = Returns "up"%string) /\
     (now - t <= 5 * 1000000 ->
      PrimFloat.ltb 0 (m_current m) = false ->
      get_status_class w (Naive now) = Returns "down"%string)) /\
  (forall ms' m t utcoffset,
     ms = ms' ++ [m] ->
     m_timestamp m = Aware t utcoffset ->
     get_status_class w (Naive now) = RaisesTypeError) /\
  (forall word,
     get_status_class w (Naive now) = Returns word ->
     In word ["unknown"; "stale"; "up"; "down"]%string).
Proof.
  intros w. split; [| split; [| split]].
  - intros ->. reflexivity.
  - intros ms' m t -> Hts. subst w. rewrite feed_snoc.
    rewrite (get_status_class_naive_update _ t now)
      by (cbn [add add_measurement last_update]; rewrite Hts; reflexivity).
    cbn [add add_measurement last_current].
    split; [| split].
    + intros Hlate.
      destruct (Z.ltb_spec (5 * 1000000) (now - t)); [reflexivity | lia].
    + intros Hfresh Hpos.
      destruct (Z.ltb_spec (5 * 1000000) (now - t)); [lia |].
      rewrite Hpos. reflexivity.
    + intros Hfresh Hnonpos.
      destruct (Z.ltb_spec (5 * 1000000) (now - t)); [lia |].
      rewrite Hnonpos. reflexivity.
  - intros ms' m t utcoffset -> Hts. subst w. rewrite feed_snoc.
    apply (get_status_class_aware _ t utcoffset).
    cbn [add add_measurement last_update]. rewrite Hts. reflexivity.
  - intros word. unfold get_status_class.
    destruct (last_update w) as [[t | t utcoffset] |]; cbn [datetime_sub].
    + destruct (timedelta_seconds 5 <? now - t).
      * intros [= <-]. cbn. tauto.
      * destruct (is_online w); intros [= <-]; cbn; tauto.
    + discriminate.
    + intros [= <-]. cbn. tauto.
Qed.

Lemma get_status_class_naive_witness :
  let ms := [sample_measurement 0 0 1; sample_measurement 3 3 0] in
  let w := feed (HostMonitor_init "h" "a") ms in
  get_status_class (HostMonitor_init "h" "a") (Naive 5000000)
  = Returns "unknown"%string /\
  get_status_class w (Naive 5000001) = Returns "stale"%string /\
  get_status_class w (Naive 5000000) = Returns "up"%string /\
  get_status_class
    (feed (HostMonitor_init "h" "a") [mkMeasurement 3 3 1 (Aware 0 3600000000)])
    (Naive 5000000) = RaisesTypeError.
Proof.
  cbv zeta. split; [| split; [| split]].
  - apply (get_status_class_naive "h" "a" [] 5000000). reflexivity.
  - destruct (get_status_class_naive "h" "a"
                [sample_measurement 0 0 1; sample_measurement 3 3 0] 5000001)
      as (_ & H & _).
    destruct (H [sample_measurement 0 0 1] (sample_measurement 3 3 0) 0
                eq_refl eq_refl) as (Hstale & _).
    apply Hstale. lia.
  - destruct (get_status_class_naive "h" "a"
                [sample_measurement 0 0 1; sample_measurement 3 3 0] 5000000)
      as (_ & H & _).
    destruct (H [sample_measurement 0 0 1] (sample_measurement 3 3 0) 0
                eq_refl eq_refl) as (_ & Hup & _).
    apply Hup; [lia | reflexivity].
  - destruct (get_status_class_naive "h" "a"
                [mkMeasurement 3 3 1 (Aware 0 3600000000)] 5000000)
      as (_ & _ & H & _).
    exact (H [] (mkMeasurement 3 3 1 (Aware 0 3600000000)) 0 3600000000
             eq_refl eq_refl).
Defined.

(** ** The sparkline *)

Lemma py_slice_from_suffix {A : Type} (l : list A) (k : Z) :
  0 <= k <= Z.of_nat (length l) -> py_slice_from k l = skipn (Z.to_nat k) l.
Proof.
  intros Hk. unfold py_slice_from. cbv zeta.
  destruct (Z.ltb_spec k 0) as [Hneg | _]; [lia |].
  rewrite Z.min_l by lia. reflexivity.
Qed.

Lemma py_slice_from_last {A : Type} (l : list A) (k : Z) :
  0 < k <= Z.of_nat (length l) -> py_slice_from (- k) l = lastn (Z.to_nat k) l.
Proof.
  intros Hk. unfold py_slice_from, lastn. cbv zeta.
  destruct (Z.ltb_spec (- k) 0) as [_ | Hge]; [| lia].
  rewrite Z.max_r by lia. f_equal. lia.
Qed.

(** For a positive range the sparkline is the tail of the history of that
    length, or the whole history when it is shorter. *)
Lemma get_sparkline_data_positive (self : HostMonitor) (time_range : Z) :
  0 < time_range ->
  get_sparkline_data self time_range
  = lastn (Z.to_nat (Z.min time_range (Z.of_nat (length (history self)))))
      (history self).
Proof.
  intros Hpos. unfold get_sparkline_data.
  destruct (Z.leb_spec (Z.of_nat (length (history self))) time_range) as [Hle | Hgt].
  - rewrite Z.min_r by lia. rewrite Nat2Z.id. symmetry. apply lastn_all. lia.
  - rewrite Z.min_l by lia. apply py_slice_from_last. lia.
Qed.

(** C5: with one entry in the history and a range of 0, the sparkline is
    that entry, where the most recent [min 0 1 = 0] entries are none. *)
Theorem get_sparkline_data_zero_range :
  let w := add_measurement (HostMonitor_init "h" "a") 5 5 1 10 in
  Z.min 0 (Z.of_nat (length (history w))) = 0 /\
  lastn 0 (history w) = [] /\
  get_sparkline_data w 0
  = [ {| timestamp := 10; current := 5; average := 5; sequence := 1;
         is_loss := false |} ].
Proof. cbv zeta. repeat split. Qed.

(** C10: a range of 0 gives the whole history, which is not the empty list
    when the history is not empty; a negative range [w] with [|w|] below the
    length of the history gives all but the first [|w|] entries. *)
Theorem get_sparkline_data_nonpositive (self : HostMonitor) :
  (history self <> [] ->
   get_sparkline_data self 0 = history self /\
   length (get_sparkline_data self 0) = length (history self) /\
   get_sparkline_data self 0 <> []) /\
  (forall w : Z,
     w < 0 ->
     Z.abs w < Z.of_nat (length (history self)) ->
     get_sparkline_data self w = skipn (Z.abs_nat w) (history self) /\
     length (get_sparkline_data self w)
     = (length (history self) - Z.abs_nat w)%nat).
Proof.
  assert (Hzero : get_sparkline_data self 0 = history self).
  { unfold get_sparkline_data.
    destruct (Z.of_nat (length (history self)) <=? 0); [reflexivity |].
    rewrite py_slice_from_suffix by (cbn; lia). reflexivity. }
  split.
  - intros Hne. rewrite Hzero. repeat split; assumption.
  - intros w Hneg Hlt.
    assert (Heq : get_sparkline_data self w = skipn (Z.abs_nat w) (history self)).
    { unfold get_sparkline_data.
      destruct (Z.leb_spec (Z.of_nat (length (history self))) w) as [Hle | _]; [lia |].
      rewrite py_slice_from_suffix by lia.
      f_equal. lia. }
    split; [exact Heq |].
    rewrite Heq. apply length_skipn.
Qed.

Lemma get_sparkline_data_nonpositive_witness :
  let w := feed (HostMonitor_init "h" "a")
             [sample_measurement 1 1 1; sample_measurement 2 2 2;
              sample_measurement 3 3 3] in
  history w <> [] /\
  get_sparkline_data w 0 = history w /\
  (-2 < 0 /\ Z.abs (-2) < Z.of_nat (length (history w))) /\
  get_sparkline_data w (-2) = skipn 2 (history w).
Proof.
  cbv zeta.
  destruct (get_sparkline_data_nonpositive
              (feed (HostMonitor_init "h" "a")
                 [sample_measurement 1 1 1; sample_measurement 2 2 2;
                  sample_measurement 3 3 3])) as [Hzero Hneg].
  assert (Hne : history
                  (feed (HostMonitor_init "h" "a")
                     [sample_measurement 1 1 1; sample_measurement 2 2 2;
                      sample_measurement 3 3 3]) <> []) by (cbn; discriminate).
  assert (Hb : -2 < 0 /\
               Z.abs (-2)
               < Z.of_nat
                   (length
                      (history
                         (feed (HostMonitor_init "h" "a")
                            [sample_measurement 1 1 1; sample_measurement 2 2 2;
                             sample_measurement 3 3 3])))) by (cbn; lia).
  split; [exact Hne |]. split; [exact (proj1 (Hzero Hne)) |].
  split; [exact Hb |].
  exact (proj1 (Hneg (-2) (proj1 Hb) (proj2 Hb))).
Defined.

(** ** The loss rate *)

Lemma lost_measurements_from (h : list Entry) :
  forall acc,
    fold_left (fun acc e => if is_loss e then acc + 1 else acc) h acc
    = acc + Z.of_nat (count_loss h).
Proof.
  unfold count_loss.
  induction h as [| e h' IH]; intros acc; cbn [fold_left filter].
  - cbn. lia.
  - rewrite IH. destruct (is_loss e); cbn [length]; lia.
Qed.

Lemma lost_measurements_count (h : list Entry) :
  lost_measurements h = Z.of_nat (count_loss h).
Proof. unfold lost_measurements. rewrite lost_measurements_from. lia. Qed.

Lemma count_loss_le (h : list Entry) : (count_loss h <= length h)%nat.
Proof. unfold count_loss. apply filter_length_le. Qed.

Lemma row_ok_spec (fuel : nat) :
  forall lost total,
    row_ok fuel lost total = true ->
    forall i, (i < fuel)%nat ->
      rate_ok (rate_of_counts (lost + Z.of_nat i) total)
        (lost + Z.of_nat i) total = true.
Proof.
  induction fuel as [| k IH]; intros lost total Hrow i Hi; [lia |].
  cbn [row_ok] in Hrow. apply andb_true_iff in Hrow as [Hhere Hrest].
  destruct i as [| i'].
  - replace (lost + Z.of_nat 0) with lost by lia. exact Hhere.
  - replace (lost + Z.of_nat (S i')) with (lost + 1 + Z.of_nat i') by lia.
    apply IH; [exact Hrest | lia].
Qed.

Lemma rows_ok_spec (fuel : nat) :
  forall total n,
    rows_ok fuel total n = true ->
    forall j, (j < fuel)%nat ->
      row_ok (S (n + j)) 0 (total + Z.of_nat j) = true.
Proof.
  induction fuel as [| k IH]; intros total n Hrows j Hj; [lia |].
  cbn [rows_ok] in Hrows. apply andb_true_iff in Hrows as [Hhere Hrest].
  destruct j as [| j'].
  - replace (total + Z.of_nat 0) with total by lia.
    rewrite Nat.add_0_r. exact Hhere.
  - replace (total + Z.of_nat (S j')) with (total + 1 + Z.of_nat j') by lia.
    replace (S (n + S j')) with (S (S n + j')) by lia.
    apply IH; [exact Hrest | lia].
Qed.

(** Every pair of counts a history of at most 600 entries can give. *)
Lemma rate_table : rows_ok 600 1 1 = true.
Proof. vm_compute. reflexivity. Qed.

Lemma rate_ok_counts (lost total : nat) :
  (1 <= total <= 600)%nat -> (lost <= total)%nat ->
  rate_ok (rate_of_counts (Z.of_nat lost) (Z.of_nat total))
    (Z.of_nat lost) (Z.of_nat total) = true.
Proof.
  intros Htotal Hlost.
  pose proof (rows_ok_spec 600 1 1 rate_table (total - 1)%nat) as Hrow.
  replace (1 + Z.of_nat (total - 1)) with (Z.of_nat total) in Hrow by lia.
  pose proof (row_ok_spec _ _ _ (Hrow ltac:(lia)) lost ltac:(lia)) as Hok.
  exact Hok.
Qed.

(** C4 (amended): on an empty history the loss rate is exactly [0.0]; on
    the history of a monitor fed by [add_measurement] it is the binary64
    value of [(lost / total) * 100], the division done first, for the
    number [lost] of entries marked as lost and the number [total] of
    entries; it lies in [[0, 100]], and as a rational it is within
    [2^-46] of [100 * lost / total]. *)
Theorem get_loss_rate_spec (nm addr : string) (ms : list Measurement) :
  let w := feed (HostMonitor_init nm addr) ms in
  let lost := Z.of_nat (count_loss (history w)) in
  let total := Z.of_nat (length (history w)) in
  (history w = [] -> get_loss_rate w = 0%float) /\
  (history w <> [] ->
   get_loss_rate w
   = PrimFloat.mul (PrimFloat.div (float_of_int lost) (float_of_int total)) 100 /\
   PrimFloat.leb 0 (get_loss_rate w) = true /\
   PrimFloat.leb (get_loss_rate w) 100 = true /\
   exists q : Q,
     float_value (get_loss_rate w) = Some q /\
     (Qabs (q - (100 * lost # Z.to_pos total)) <= 1 # 2 ^ 46)%Q).
Proof.
  intros w lost total. split.
  - intros Hempty. unfold get_loss_rate. rewrite Hempty. reflexivity.
  - intros Hne.
    assert (Hrate : get_loss_rate w = rate_of_counts lost total).
    { unfold get_loss_rate, rate_of_counts.
      destruct (history w) as [| e h'] eqn:Hh; [contradiction |].
      rewrite lost_measurements_count. reflexivity. }
    assert (Hlen : (1 <= length (history w) <= 600)%nat).
    { split.
      - destruct (history w); [contradiction | cbn; lia].
      - apply (feed_history_bounded ms), init_history_bounded. }
    pose proof (rate_ok_counts _ _ Hlen (count_loss_le (history w))) as Hok.
    fold lost total in Hok. rewrite <- Hrate in Hok.
    unfold rate_ok in Hok.
    apply andb_true_iff in Hok as [Hbounds Hclose].
    apply andb_true_iff in Hbounds as [Hlow Hhigh].
    split; [exact Hrate |]. split; [exact Hlow |]. split; [exact Hhigh |].
    destruct (float_value (get_loss_rate w)) as [q |]; [| discriminate].
    exists q. split; [reflexivity |].
    apply Qle_bool_iff in Hclose. exact Hclose.
Qed.

Lemma get_loss_rate_spec_witness :
  let w := feed (HostMonitor_init "h" "a")
             [sample_measurement 0 0 1; sample_measurement 4 4 2;
              sample_measurement 5 5 3] in
  get_loss_rate (HostMonitor_init "h" "a") = 0%float /\
  history w <> [] /\
  get_loss_rate w
  = PrimFloat.mul (PrimFloat.div (float_of_int 1) (float_of_int 3)) 100 /\
  PrimFloat.leb (get_loss_rate w) 100 = true.
Proof.
  cbv zeta. split; [| split].
  - apply (get_loss_rate_spec "h" "a" []). reflexivity.
  - cbn. discriminate.
  - destruct (get_loss_rate_spec "h" "a"
                [sample_measurement 0 0 1; sample_measurement 4 4 2;
                 sample_measurement 5 5 3]) as [_ Hrate].
    destruct Hrate as (Heq & _ & Hhigh & _); [cbn; discriminate |].
    split; [exact Heq | exact Hhigh].
Defined.

(** C4, as stated: with 29 losses among 100 entries, [100 * 29 / 100] is
    29, in exact and in binary64 arithmetic alike, while [get_loss_rate]
    divides first: [(29 / 100) * 100] is the binary64 number just below
    29. *)
Lemma loss_rate_not_exact :
  let w := feed (HostMonitor_init "h" "a") sample_29_of_100 in
  length (history w) = 100%nat /\
  count_loss (history w) = 29%nat /\
  get_loss_rate w = 0x1.cffffffffffffp+4%float /\
  PrimFloat.eqb (get_loss_rate w) 29 = false /\
  PrimFloat.eqb (get_loss_rate w) (100 * 29 / 100)%float = false /\
  exists q : Q,
    float_value (get_loss_rate w) = Some q /\
    ~ (q == 100 * 29 / 100)%Q.
Proof.
  cbv zeta. repeat split; try (vm_compute; reflexivity).
  eexists. split; [vm_compute; reflexivity |].
  intros Hq. vm_compute in Hq. discriminate.
Qed.

(** ** Reading a log *)

Section ParsingFacts.
Context `{Parsers}.


(** One turn of the loop adds the record of the line, if it has one. *)
Lemma parse_line_record (entries : list LogEntry) (line : string) :
  parse_line entries line
  = entries ++ match record_of_line line with
               | Some e => [e]
               | None => []
               end.
Proof.
  unfold parse_line, record_of_line, parse_record.
  cbv zeta.
  destruct (str_truthy (strip line)) eqn:Htruthy.
  - destruct (split (strip line)) as [| p0 [| p1 [| p2 [| p3 [| p4 rest]]]]];
      cbn [length Nat.leb nth nth_error getitem bind];
      try (rewrite app_nil_r; reflexivity).
    + destruct (fromisoformat (p0 ++ " " ++ p1)%string); cbn;
        [| rewrite app_nil_r; reflexivity].
      destruct (py_float p2); cbn; [| rewrite app_nil_r; reflexivity].
      destruct (py_float p3); cbn; rewrite app_nil_r; reflexivity.
    + destruct (fromisoformat (p0 ++ " " ++ p1)%string); cbn;
        [| rewrite app_nil_r; reflexivity].
      destruct (py_float p2); cbn; [| rewrite app_nil_r; reflexivity].
      destruct (py_float p3); cbn; [| rewrite app_nil_r; reflexivity].
      destruct (py_int p4); cbn; [reflexivity | rewrite app_nil_r; reflexivity].
  - destruct (strip line) as [| c s']; [| discriminate].
    cbn. rewrite app_nil_r. reflexivity.
Qed.

Lemma parse_lines_from (lines : list string) :
  forall entries,
    fold_left parse_line lines entries = entries ++ records_of_lines lines.
Proof.
  induction lines as [| line lines' IH]; intros entries; cbn [fold_left].
  - cbn. rewrite app_nil_r. reflexivity.
  - rewrite IH, parse_line_record, <- app_assoc. reflexivity.
Qed.

Lemma parse_lines_records (lines : list string) :
  parse_lines lines = records_of_lines lines.
Proof. unfold parse_lines. apply parse_lines_from. Qed.

Lemma fold_add_entry (entries : list LogEntry) :
  forall monitor,
    fold_left add_entry entries monitor
    = feed monitor (map measurement_of_log entries).
Proof.
  induction entries as [| e entries' IH]; intros monitor; cbn.
  - reflexivity.
  - apply IH.
Qed.

Lemma dict_get_set {V : Type} (d : dict V) (k : string) (v : V) :
  dict_get (dict_set d k v) k = Some v.
Proof.
  induction d as [| [k' v'] d' IH]; cbn.
  - rewrite String.eqb_refl. reflexivity.
  - destruct (String.eqb k k') eqn:Hk; cbn; rewrite Hk; [reflexivity | exact IH].
Qed.

(** The monitor of [log_name] after [update_monitor]: the one that was
    there, or a new one, fed with the records of the log. *)
Lemma update_monitor_history (self : LogParser) (dir : Directory)
    (log_name : string) (address : option string) :
  (length (history_of self log_name) <= HISTORY_MAXLEN)%nat ->
  exists m,
    dict_get (monitors (update_monitor self dir log_name address)) log_name
    = Some m /\
    records (history m)
    = lastn HISTORY_MAXLEN
        (records (history_of self log_name)
         ++ map measurement_of_log (parse_log_file dir log_name 600)).
Proof.
  intros Hbound. unfold update_monitor. cbv zeta. cbn [monitors].
  rewrite dict_get_set. eexists. split; [reflexivity |].
  rewrite fold_add_entry.
  set (start := match address with
                | Some a => if str_truthy a then set_address _ a else _
                | None => _
                end).
  assert (Hstart : history start = history_of self log_name).
  { subst start. unfold history_of, dict_contains in *.
    destruct (dict_get (monitors self) log_name) as [m0 |] eqn:Hget; cbn [is_not_None].
    - rewrite Hget. destruct address as [a |]; [destruct (str_truthy a) |]; reflexivity.
    - rewrite dict_get_set.
      destruct address as [a |]; [destruct (str_truthy a) |]; reflexivity. }
  rewrite feed_history by (rewrite Hstart; exact Hbound).
  unfold records. rewrite <- lastn_map, map_app, Hstart.
  fold (records (entries_from start
                   (map measurement_of_log (parse_log_file dir log_name 600)))).
  rewrite records_entries_from. reflexivity.
Qed.

Lemma parse_log_file_tail (files : dict (list string))
    (log_name : string) (lines : list string) :
  dict_get files log_name = Some lines ->
  parse_log_file (Some files) log_name 600
  = records_of_lines (lastn 600 lines).
Proof.
  intros Hget. unfold parse_log_file. rewrite Hget. cbv zeta.
  rewrite parse_lines_records. f_equal.
  destruct (Z.ltb_spec 600 (Z.of_nat (length lines))) as [Hlong | Hshort].
  - rewrite (py_slice_from_last lines 600) by lia. reflexivity.
  - symmetry. apply lastn_all. lia.
Qed.

Lemma records_of_lines_app (l1 l2 : list string) :
  records_of_lines (l1 ++ l2) = records_of_lines l1 ++ records_of_lines l2.
Proof. unfold records_of_lines. apply flat_map_app. Qed.

(** C9: in a batch of lines each line adds its record or, when it is
    malformed, nothing; a malformed line in the middle of a batch leaves
    the records of the lines before and after it, and these are what
    [update_monitor] feeds to the monitor. *)
Theorem malformed_record_skipped (before after : list string) (line : string) :
  (forall lines, parse_lines lines = records_of_lines lines) /\
  (record_of_line line = None ->
   parse_lines (before ++ line :: after)
   = parse_lines before ++ parse_lines after) /\
  (forall e,
     record_of_line line = Some e ->
     parse_lines (before ++ line :: after)
     = parse_lines before ++ e :: parse_lines after) /\
  (forall self files log_name address lines,
     dict_get files log_name = Some lines ->
     lastn 600 lines = before ++ line :: after ->
     (length (history_of self log_name) <= 600)%nat ->
     record_of_line line = None ->
     exists m,
       dict_get (monitors (update_monitor self (Some files) log_name address))
         log_name = Some m /\
       records (history m)
       = lastn 600
           (records (history_of self log_name)
            ++ map measurement_of_log (parse_lines before ++ parse_lines after))).
Proof.
  assert (Hbad : record_of_line line = None ->
                 records_of_lines (before ++ line :: after)
                 = records_of_lines before ++ records_of_lines after).
  { intros Hnone. rewrite records_of_lines_app. f_equal.
    unfold records_of_lines. cbn [flat_map]. rewrite Hnone. reflexivity. }
  split; [exact parse_lines_records |]. split; [| split].
  - intros Hnone. rewrite !parse_lines_records. apply Hbad, Hnone.
  - intros e Hsome. rewrite !parse_lines_records, records_of_lines_app.
    f_equal. unfold records_of_lines. cbn [flat_map]. rewrite Hsome. reflexivity.
  - intros self files log_name address lines Hget Htail Hbound Hnone.
    destruct (update_monitor_history self (Some files) log_name address Hbound)
      as (m & Hm & Hrec).
    exists m. split; [exact Hm |].
    rewrite Hrec, (parse_log_file_tail files log_name lines Hget), Htail.
    rewrite (Hbad Hnone), !parse_lines_records. reflexivity.
Qed.

(** ** Refreshing twice *)

Lemma records_of_lines_length (lines : list string) :
  (length (records_of_lines lines) <= length lines)%nat.
Proof.
  induction lines as [| l ls IH]; [cbn; lia |].
  change (records_of_lines (l :: ls))
    with (match record_of_line l with
          | Some e => [e]
          | None => []
          end ++ records_of_lines ls).
  rewrite length_app. cbn [length].
  destruct (record_of_line l); cbn [length]; lia.
Qed.

Lemma parse_log_file_length (dir : Directory) (log_name : string) :
  (length (parse_log_file dir log_name 600) <= 600)%nat.
Proof.
  destruct dir as [files |]; [| cbn; lia].
  destruct (dict_get files log_name) as [lines |] eqn:Hget.
  - rewrite (parse_log_file_tail files log_name lines Hget).
    pose proof (records_of_lines_length (lastn 600 lines)) as Hlen.
    rewrite lastn_length in Hlen. lia.
  - unfold parse_log_file. rewrite Hget. cbn. lia.
Qed.

Lemma records_length (h : list Entry) : length (records h) = length h.
Proof. unfold records. apply length_map. Qed.

(** X25: two calls of [update_monitor] with the same log, on a monitor
    that holds [n <= 600] entries: the history then holds the 600 last of
    the old records followed by the [k] records of the log, twice, and it
    has [min (n + 2 * k) 600] entries. *)
Theorem update_monitor_twice (self : LogParser) (dir : Directory)
    (log_name : string) (address1 address2 : option string) :
  let ms := map measurement_of_log (parse_log_file dir log_name 600) in
  let k := length ms in
  let h0 := history_of self log_name in
  (length h0 <= 600)%nat ->
  exists m2,
    dict_get
      (monitors
         (update_monitor (update_monitor self dir log_name address1)
            dir log_name address2))
      log_name = Some m2 /\
    records (history m2) = lastn 600 (records h0 ++ ms ++ ms) /\
    length (history m2) = Nat.min (length h0 + 2 * k) 600 /\
    (h0 = [] -> length (history m2) = Nat.min (2 * k) 600).
Proof.
  intros ms k h0 Hbound.
  destruct (update_monitor_history self dir log_name address1 Hbound)
    as (m1 & Hm1 & Hrec1).
  fold ms h0 in Hrec1.
  assert (Hh1 : history_of (update_monitor self dir log_name address1) log_name
                = history m1).
  { unfold history_of. rewrite Hm1. reflexivity. }
  assert (Hbound1 : (length (history m1) <= HISTORY_MAXLEN)%nat).
  { rewrite <- records_length, Hrec1, lastn_length. lia. }
  rewrite <- Hh1 in Hbound1.
  destruct (update_monitor_history _ dir log_name address2 Hbound1)
    as (m2 & Hm2 & Hrec2).
  fold ms in Hrec2. rewrite Hh1, Hrec1, lastn_app_lastn, <- app_assoc in Hrec2.
  assert (Hlen : length (history m2) = Nat.min (length h0 + 2 * k) 600).
  { rewrite <- records_length, Hrec2, lastn_length, !length_app, records_length.
    fold k. unfold HISTORY_MAXLEN. lia. }
  exists m2. split; [exact Hm2 |]. split; [exact Hrec2 |].
  split; [exact Hlen |].
  intros Hempty. rewrite Hlen, Hempty. reflexivity.
Qed.

(** C8: [update_monitor] does not look for records it has fed before. For
    a monitor that is new, or holds no entry, at the first of two refreshes
    from the same log of [k] records: the first refresh stores the [k]
    records and the second appends each of them again, so the history
    holds the 600 last of the [k] records taken twice, it has
    [min (2 * k) 600] entries, and as long as [2 * k <= 600] it is the [k]
    records followed by the same [k] records. *)
Theorem refresh_twice_appends_again (self : LogParser) (dir : Directory)
    (log_name : string) (address1 address2 : option string) :
  let ms := map measurement_of_log (parse_log_file dir log_name 600) in
  let k := length ms in
  history_of self log_name = [] ->
  exists m1 m2,
    dict_get (monitors (update_monitor self dir log_name address1)) log_name
    = Some m1 /\
    records (history m1) = ms /\
    dict_get
      (monitors
         (update_monitor (update_monitor self dir log_name address1)
            dir log_name address2))
      log_name = Some m2 /\
    records (history m2) = lastn 600 (ms ++ ms) /\
    length (history m2) = Nat.min (2 * k) 600 /\
    ((2 * k <= 600)%nat -> records (history m2) = ms ++ ms).
Proof.
  intros ms k Hempty.
  assert (Hk : (k <= 600)%nat).
  { subst k ms. rewrite length_map. apply parse_log_file_length. }
  assert (Hbound : (length (history_of self log_name) <= HISTORY_MAXLEN)%nat)
    by (rewrite Hempty; cbn; lia).
  destruct (update_monitor_history self dir log_name address1 Hbound)
    as (m1 & Hm1 & Hrec1).
  fold ms in Hrec1. rewrite Hempty in Hrec1. cbn [records map app] in Hrec1.
  rewrite lastn_all in Hrec1 by (fold k; unfold HISTORY_MAXLEN; lia).
  assert (Hh1 : history_of (update_monitor self dir log_name address1) log_name
                = history m1).
  { unfold history_of. rewrite Hm1. reflexivity. }
  assert (Hbound1 : (length
                       (history_of (update_monitor self dir log_name address1)
                          log_name) <= HISTORY_MAXLEN)%nat).
  { rewrite Hh1, <- records_length, Hrec1. fold k. unfold HISTORY_MAXLEN. lia. }
  destruct (update_monitor_history _ dir log_name address2 Hbound1)
    as (m2 & Hm2 & Hrec2).
  fold ms in Hrec2. rewrite Hh1, Hrec1 in Hrec2.
  exists m1, m2. split; [exact Hm1 |]. split; [exact Hrec1 |].
  split; [exact Hm2 |]. split; [exact Hrec2 |]. split.
  - rewrite <- records_length, Hrec2, lastn_length, length_app.
    unfold HISTORY_MAXLEN. subst k. lia.
  - intros Hfit. rewrite Hrec2. apply lastn_all.
    rewrite length_app. unfold HISTORY_MAXLEN. subst k. lia.
Qed.

(** ** The order of the rows *)

Lemma dict_keys_contains {V : Type} (d : dict V) (k : string) :
  In k (dict_keys d) -> dict_contains d k = true.
Proof.
  unfold dict_contains.
  induction d as [| [k' v'] d' IH]; cbn; [tauto |].
  intros [Heq | Hin].
  - subst k'. rewrite String.eqb_refl. reflexivity.
  - destruct (String.eqb k k'); [reflexivity | exact (IH Hin)].
Qed.

Lemma dict_keys_set {V : Type} (d : dict V) (k : string) (v : V) :
  dict_keys (dict_set d k v)
  = if dict_contains d k then dict_keys d else dict_keys d ++ [k].
Proof.
  unfold dict_contains, dict_keys.
  induction d as [| [k' v'] d' IH]; cbn; [reflexivity |].
  destruct (String.eqb k k') eqn:Hk; cbn; [reflexivity |].
  rewrite IH. destruct (dict_get d' k); reflexivity.
Qed.






End ParsingFacts.

(** ** Examples on a sample directory *)

Lemma malformed_record_skipped_witness :
  let before := ["19000 1 5 5 1"]%string in
  let after := ["19000 3 5 5 x"; "19000 4 6 6 4"]%string in
  record_of_line (H := sample_parsers) "19000 2 5 5" = None /\
  parse_lines (H := sample_parsers) (before ++ "19000 2 5 5"%string :: after)
  = parse_lines (H := sample_parsers) before
    ++ parse_lines (H := sample_parsers) after /\
  length (parse_lines (H := sample_parsers) after) = 1%nat.
Proof.
  cbv zeta.
  assert (Hnone : record_of_line (H := sample_parsers) "19000 2 5 5" = None)
    by reflexivity.
  split; [exact Hnone |]. split.
  - exact (proj1 (proj2 (malformed_record_skipped (H := sample_parsers)
                            ["19000 1 5 5 1"]%string
                            ["19000 3 5 5 x"; "19000 4 6 6 4"]%string
                            "19000 2 5 5")) Hnone).
  - reflexivity.
Defined.

Lemma update_monitor_twice_witness :
  (length (history_of LogParser_init "B") <= 600)%nat /\
  exists m2,
    dict_get
      (monitors
         (update_monitor (H := sample_parsers)
            (update_monitor (H := sample_parsers) LogParser_init sample_dir "B" None)
            sample_dir "B" None))
      "B" = Some m2 /\
    length (history m2) = 4%nat.
Proof.
  assert (Hbound : (length (history_of LogParser_init "B") <= 600)%nat)
    by (cbn; lia).
  split; [exact Hbound |].
  destruct (update_monitor_twice (H := sample_parsers) LogParser_init sample_dir
              "B" None None Hbound) as (m2 & Hm2 & _ & _ & Hlen).
  exists m2. split; [exact Hm2 |].
  rewrite Hlen; reflexivity.
Defined.

Lemma refresh_twice_appends_again_witness :
  history_of LogParser_init "B" = [] /\
  exists m1 m2,
    dict_get
      (monitors (update_monitor (H := sample_parsers) LogParser_init sample_dir
                   "B" None)) "B" = Some m1 /\
    length (history m1) = 2%nat /\
    dict_get
      (monitors
         (update_monitor (H := sample_parsers)
            (update_monitor (H := sample_parsers) LogParser_init sample_dir "B" None)
            sample_dir "B" None))
      "B" = Some m2 /\
    length (history m2) = 4%nat /\
    records (history m2) = records (history m1) ++ records (history m1).
Proof.
  assert (Hempty : history_of LogParser_init "B" = []) by reflexivity.
  split; [exact Hempty |].
  destruct (refresh_twice_appends_again (H := sample_parsers) LogParser_init
              sample_dir "B" None None Hempty)
    as (m1 & m2 & Hm1 & Hrec1 & Hm2 & _ & Hlen & Hfit).
  exists m1, m2. split; [exact Hm1 |]. split.
  - rewrite <- records_length, Hrec1. reflexivity.
  - split; [exact Hm2 |]. split; [rewrite Hlen; reflexivity |].
    rewrite Hrec1. apply Hfit. vm_compute. lia.
Defined.


(** * Further properties of the code *)

(** ** The window and its queries *)

Lemma lastn_one_snoc {A : Type} (l : list A) (x : A) : lastn 1 (l ++ [x]) = [x].
Proof.
  unfold lastn. rewrite length_app. cbn [length].
  replace (length l + 1 - 1)%nat with (length l) by lia.
  rewrite skipn_app, skipn_all, Nat.sub_diag. reflexivity.
Qed.

Lemma get_sparkline_data_suffix (self : HostMonitor) (time_range : Z) :
  exists older, history self = older ++ get_sparkline_data self time_range.
Proof.
  unfold get_sparkline_data.
  destruct (Z.of_nat (length (history self)) <=? time_range).
  - exists []. reflexivity.
  - unfold py_slice_from. cbv zeta.
    match goal with
    | |- exists older, _ = older ++ skipn ?k _ =>
        exists (firstn k (history self)); symmetry; apply firstn_skipn
    end.
Qed.

(** X1: whatever the range, positive or not, the sparkline is a suffix of
    the history: entries are neither reordered nor invented; for a range of
    at least 1 it is the suffix of length [min range (length history)]. *)
Theorem sparkline_suffix (self : HostMonitor) (time_range : Z) :
  (exists older, history self = older ++ get_sparkline_data self time_range) /\
  (1 <= time_range ->
   get_sparkline_data self time_range
   = lastn (Z.to_nat time_range) (history self) /\
   Z.of_nat (length (get_sparkline_data self time_range))
   = Z.min time_range (Z.of_nat (length (history self)))).
Proof.
  split; [apply get_sparkline_data_suffix |].
  intros Hpos.
  rewrite get_sparkline_data_positive by lia.
  rewrite lastn_length.
  destruct (Z.le_gt_cases time_range (Z.of_nat (length (history self))))
    as [Hle | Hgt].
  - rewrite Z.min_l by lia. split; [reflexivity | lia].
  - rewrite Z.min_r by lia. rewrite Nat2Z.id. split; [| lia].
    rewrite !lastn_all by lia. reflexivity.
Qed.

Lemma sparkline_suffix_witness :
  let w := feed (HostMonitor_init "h" "a")
             [sample_measurement 1 1 1; sample_measurement 2 2 2;
              sample_measurement 3 3 3] in
  1 <= 2 /\
  get_sparkline_data w 2 = lastn 2 (history w) /\
  Z.of_nat (length (get_sparkline_data w 2)) = 2.
Proof.
  cbv zeta. split; [lia |].
  exact (proj2 (sparkline_suffix
                  (feed (HostMonitor_init "h" "a")
                     [sample_measurement 1 1 1; sample_measurement 2 2 2;
                      sample_measurement 3 3 3]) 2) ltac:(lia)).
Defined.

(** X2: a sparkline of range 1 taken right after [add_measurement] is the
    entry just stored, with the fields as given. *)
Theorem sparkline_after_append (self : HostMonitor) (cur avg : float)
    (seq : Z) (ts : datetime) :
  get_sparkline_data (add_measurement self cur avg seq ts) 1
  = [ {| timestamp := ts; current := cur; average := avg; sequence := seq;
         is_loss := loss_check self cur avg |} ].
Proof.
  rewrite get_sparkline_data_positive by lia.
  unfold add_measurement. cbn [history].
  destruct (deque_append_snoc HISTORY_MAXLEN (history self)
              {| timestamp := ts; current := cur; average := avg;
                 sequence := seq; is_loss := loss_check self cur avg |})
    as [older Holder]; [unfold HISTORY_MAXLEN; lia |].
  rewrite Holder, length_app. cbn [length].
  replace (Z.to_nat (Z.min 1 (Z.of_nat (length older + 1)))) with 1%nat by lia.
  apply lastn_one_snoc.
Qed.

(** X3: the history of a monitor holds the records of the last 600
    measurements it was fed, in the order they came; feeding more keeps the
    stored records and drops only the oldest. *)
Theorem history_last_600 (nm addr : string) (ms1 ms2 : list Measurement) :
  let w := feed (HostMonitor_init nm addr) ms1 in
  records (history w) = lastn 600 ms1 /\
  records (history (feed w ms2)) = lastn 600 (records (history w) ++ ms2) /\
  records (history (feed w ms2)) = lastn 600 (ms1 ++ ms2).
Proof.
  intros w.
  assert (Hw : records (history w) = lastn 600 ms1).
  { subst w. rewrite feed_history by apply init_history_bounded.
    cbn [history HostMonitor_init app]. unfold records.
    rewrite <- lastn_map. fold (records (entries_from (HostMonitor_init nm addr) ms1)).
    rewrite records_entries_from. reflexivity. }
  assert (Hbound : (length (history w) <= HISTORY_MAXLEN)%nat)
    by apply (feed_history_bounded ms1), init_history_bounded.
  assert (Hfeed : records (history (feed w ms2))
                  = lastn 600 (records (history w) ++ ms2)).
  { rewrite feed_history by exact Hbound. unfold records.
    rewrite <- lastn_map, map_app. fold (records (entries_from w ms2)).
    rewrite records_entries_from. reflexivity. }
  split; [exact Hw |]. split; [exact Hfeed |].
  rewrite Hfeed, Hw. apply lastn_app_lastn.
Qed.

(** X4: in a monitor that got at least one measurement, the last entry of
    the history, the last values and the previous values all are the
    measurement fed last. *)
Theorem last_values_mirror_history (nm addr : string) (ms : list Measurement)
    (m : Measurement) :
  let before := feed (HostMonitor_init nm addr) ms in
  let w := feed (HostMonitor_init nm addr) (ms ++ [m]) in
  (exists older, history w = older ++ [entry_of before m]) /\
  last_current w = m_current m /\
  last_average w = m_average m /\
  last_sequence w = m_sequence m /\
  last_update w = Some (m_timestamp m) /\
  prev_current w = Some (last_current w) /\
  prev_average w = Some (last_average w).
Proof.
  cbv zeta. rewrite feed_snoc. split.
  - rewrite add_history. apply deque_append_snoc. unfold HISTORY_MAXLEN. lia.
  - cbn. repeat split.
Qed.

Lemma extremes_ok_spec (fuel : nat) :
  forall total,
    extremes_ok fuel total = true ->
    forall j, (j < fuel)%nat ->
      rate_of_counts (total + Z.of_nat j) (total + Z.of_nat j) = 100%float /\
      rate_of_counts 0 (total + Z.of_nat j) = 0%float.
Proof.
  induction fuel as [| k IH]; intros total Hok j Hj; [lia |].
  cbn [extremes_ok] in Hok.
  apply andb_true_iff in Hok as [Hhere Hrest].
  apply andb_true_iff in Hhere as [Hfull Hnone].
  destruct j as [| j'].
  - replace (total + Z.of_nat 0) with total by lia.
    split; apply FloatAxioms.Leibniz.eqb_spec; assumption.
  - replace (total + Z.of_nat (S j')) with (total + 1 + Z.of_nat j') by lia.
    apply IH; [exact Hrest | lia].
Qed.

Lemma extremes_table : extremes_ok 600 1 = true.
Proof. vm_compute. reflexivity. Qed.

Lemma count_loss_all (h : list Entry) :
  (forall e, In e h -> is_loss e = true) -> count_loss h = length h.
Proof.
  unfold count_loss. induction h as [| e h' IH]; intros Hall; cbn; [reflexivity |].
  rewrite (Hall e (or_introl eq_refl)). cbn. f_equal.
  apply IH. intros e' Hin. apply Hall. right. exact Hin.
Qed.

Lemma count_loss_none (h : list Entry) :
  (forall e, In e h -> is_loss e = false) -> count_loss h = 0%nat.
Proof.
  unfold count_loss. induction h as [| e h' IH]; intros Hall; cbn; [reflexivity |].
  rewrite (Hall e (or_introl eq_refl)).
  apply IH. intros e' Hin. apply Hall. right. exact Hin.
Qed.

(** X5: for a monitor fed by [add_measurement], the loss rate is exactly
    [100.0] when every entry of the history is a loss, and exactly [0.0]
    when none is. *)
Theorem loss_rate_extremes (nm addr : string) (ms : list Measurement) :
  let w := feed (HostMonitor_init nm addr) ms in
  (history w <> [] ->
   (forall e, In e (history w) -> is_loss e = true) ->
   get_loss_rate w = 100%float) /\
  ((forall e, In e (history w) -> is_loss e = false) ->
   get_loss_rate w = 0%float).
Proof.
  intros w.
  assert (Hbound : (length (history w) <= 600)%nat)
    by apply (feed_history_bounded ms), init_history_bounded.
  assert (Hrate : history w <> [] ->
                  get_loss_rate w
                  = rate_of_counts (Z.of_nat (count_loss (history w)))
                      (Z.of_nat (length (history w)))).
  { intros Hne. unfold get_loss_rate, rate_of_counts.
    destruct (history w) as [| e h'] eqn:Hh; [contradiction |].
    rewrite lost_measurements_count. reflexivity. }
  assert (Htable : history w <> [] ->
                   rate_of_counts (Z.of_nat (length (history w)))
                     (Z.of_nat (length (history w))) = 100%float /\
                   rate_of_counts 0 (Z.of_nat (length (history w))) = 0%float).
  { intros Hne.
    assert (Hpos : (1 <= length (history w))%nat)
      by (destruct (history w); [contradiction | cbn; lia]).
    pose proof (extremes_ok_spec 600 1 extremes_table
                  (length (history w) - 1)%nat ltac:(lia)) as Hex.
    replace (1 + Z.of_nat (length (history w) - 1))
      with (Z.of_nat (length (history w))) in Hex by lia.
    exact Hex. }
  split.
  - intros Hne Hall. rewrite (Hrate Hne), (count_loss_all _ Hall).
    exact (proj1 (Htable Hne)).
  - intros Hnone.
    destruct (history w) as [| e h'] eqn:Hh.
    + unfold get_loss_rate. rewrite Hh. reflexivity.
    + rewrite Hrate by discriminate. rewrite (count_loss_none _ Hnone).
      apply Htable. discriminate.
Qed.

Lemma loss_rate_extremes_witness :
  let lost := feed (HostMonitor_init "h" "a")
                [sample_measurement 0 0 1; sample_measurement 0 0 2] in
  let fine := feed (HostMonitor_init "h" "a")
                [sample_measurement 1 1 1; sample_measurement 2 2 2] in
  get_loss_rate lost = 100%float /\ get_loss_rate fine = 0%float.
Proof.
  cbv zeta. split.
  - apply (loss_rate_extremes "h" "a"
             [sample_measurement 0 0 1; sample_measurement 0 0 2]).
    + cbn. discriminate.
    + cbn. intros e [<- | [<- | []]]; reflexivity.
  - apply (loss_rate_extremes "h" "a"
             [sample_measurement 1 1 1; sample_measurement 2 2 2]).
    cbn. intros e [<- | [<- | []]]; reflexivity.
Defined.

(** X6: a reading that is neither zero nor positive (a negative number or
    a NaN) is never marked as a loss, and yet the host shows as [down]
    while that reading is fresh. *)
Theorem nonpositive_reading (self : HostMonitor) (cur avg : float) (seq : Z)
    (ts now : Z) :
  PrimFloat.eqb cur 0 = false ->
  PrimFloat.ltb 0 cur = false ->
  loss_check self cur avg = false /\
  (now - ts <= 5 * 1000000 ->
   get_status_class (add_measurement self cur avg seq (Naive ts)) (Naive now)
   = Returns "down"%string).
Proof.
  intros Hzero Hpos. split.
  - unfold loss_check. rewrite Hzero, Hpos.
    destruct (prev_current self), (prev_average self); cbn;
      rewrite ?andb_false_r; reflexivity.
  - intros Hfresh.
    rewrite (get_status_class_naive_update _ ts now) by reflexivity.
    cbn [add_measurement last_current].
    destruct (Z.ltb_spec (5 * 1000000) (now - ts)); [lia |].
    rewrite Hpos. reflexivity.
Qed.

Lemma nonpositive_reading_witness :
  PrimFloat.eqb nan 0 = false /\
  PrimFloat.ltb 0 nan = false /\
  loss_check (add_measurement (HostMonitor_init "h" "a") nan 1 1 0) nan 1 = false /\
  get_status_class
    (add_measurement (add_measurement (HostMonitor_init "h" "a") nan 1 1 0)
       (-3)%float 1 2 (Naive 1000000)) (Naive 2000000) = Returns "down"%string.
Proof.
  split; [reflexivity |]. split; [reflexivity |]. split.
  - apply (nonpositive_reading
             (add_measurement (HostMonitor_init "h" "a") nan 1 1 0) nan 1 2 0 0);
      reflexivity.
  - apply (nonpositive_reading
             (add_measurement (HostMonitor_init "h" "a") nan 1 1 0)
             (-3)%float 1 2 1000000 2000000); [reflexivity | reflexivity | lia].
Defined.

(** X7: with no new measurement a status can only move to [stale]: a
    monitor that is stale at one instant is stale at every later one, and
    an [unknown] monitor stays [unknown] whatever the time. *)
Theorem status_over_time (self : HostMonitor) (now later : Z) :
  now <= later ->
  (get_status_class self (Naive now) = Returns "stale"%string ->
   get_status_class self (Naive later) = Returns "stale"%string) /\
  (get_status_class self (Naive now) = Returns "unknown"%string ->
   get_status_class self (Naive later) = Returns "unknown"%string) /\
  (get_status_class self (Naive later) = get_status_class self (Naive now) \/
   get_status_class self (Naive later) = Returns "stale"%string).
Proof.
  intros Hle. unfold get_status_class, timedelta_seconds.
  destruct (last_update self) as [[lu | lu utcoffset] |]; cbn [datetime_sub].
  - destruct (Z.ltb_spec (5 * 1000000) (now - lu)) as [Hs | Hf];
      destruct (Z.ltb_spec (5 * 1000000) (later - lu)) as [Hs' | Hf'];
      try lia.
    + repeat split; auto.
    + split; [destruct (is_online self); discriminate |].
      split; [destruct (is_online self); discriminate | right; reflexivity].
    + repeat split; auto.
  - repeat split; auto.
  - repeat split; auto.
Qed.

Lemma status_over_time_witness :
  let w := add_measurement (HostMonitor_init "h" "a") 4 4 1 0 in
  5000001 <= 9000000 /\
  get_status_class w (Naive 5000001) = Returns "stale"%string /\
  get_status_class w (Naive 9000000) = Returns "stale"%string.
Proof.
  cbv zeta.
  assert (Hle : 5000001 <= 9000000) by lia.
  assert (Hs : get_status_class
                 (add_measurement (HostMonitor_init "h" "a") 4 4 1 0)
                 (Naive 5000001)
               = Returns "stale"%string) by reflexivity.
  split; [exact Hle |]. split; [exact Hs |].
  exact (proj1 (status_over_time _ 5000001 9000000 Hle) Hs).
Defined.

(** ** Dictionaries *)

Lemma list_contains_In (l : list string) (k : string) :
  list_contains l k = true <-> In k l.
Proof.
  unfold list_contains. rewrite existsb_exists. split.
  - intros (x & Hin & Heq). apply String.eqb_eq in Heq. subst x. exact Hin.
  - intros Hin. exists k. split; [exact Hin | apply String.eqb_refl].
Qed.

Lemma list_contains_false (l : list string) (k : string) :
  list_contains l k = false <-> ~ In k l.
Proof.
  rewrite <- list_contains_In. destruct (list_contains l k); split;
    congruence.
Qed.

Section DictFacts.
Context {V : Type}.
Implicit Types (d : dict V) (k : string) (v : V).

Lemma dict_get_set_other d k k' v :
  k' <> k -> dict_get (dict_set d k v) k' = dict_get d k'.
Proof.
  intros Hne. induction d as [| [k0 v0] d' IH]; cbn.
  - apply String.eqb_neq in Hne. rewrite Hne. reflexivity.
  - destruct (String.eqb_spec k k0) as [-> | Hk]; cbn.
    + apply String.eqb_neq in Hne. rewrite Hne. reflexivity.
    + rewrite IH. reflexivity.
Qed.

Lemma dict_get_In d k v : dict_get d k = Some v -> In (k, v) d.
Proof.
  induction d as [| [k0 v0] d' IH]; cbn; [discriminate |].
  destruct (String.eqb_spec k k0) as [-> | Hk].
  - intros [= ->]. left. reflexivity.
  - intros Hget. right. exact (IH Hget).
Qed.

Lemma dict_contains_keys d k : dict_contains d k = true <-> In k (dict_keys d).
Proof.
  split; [| apply dict_keys_contains].
  unfold dict_contains. destruct (dict_get d k) as [v |] eqn:Hget; [| discriminate].
  intros _. apply dict_get_In in Hget.
  unfold dict_keys. apply (in_map fst) in Hget. exact Hget.
Qed.

Lemma dict_contains_list d k :
  dict_contains d k = list_contains (dict_keys d) k.
Proof.
  destruct (list_contains (dict_keys d) k) eqn:Hl.
  - apply dict_contains_keys, list_contains_In, Hl.
  - destruct (dict_contains d k) eqn:Hc; [| reflexivity].
    apply dict_contains_keys, list_contains_In in Hc. congruence.
Qed.

Lemma dict_set_NoDup d k v :
  NoDup (dict_keys d) -> NoDup (dict_keys (dict_set d k v)).
Proof.
  intros Hnd. rewrite dict_keys_set.
  destruct (dict_contains d k) eqn:Hc; [exact Hnd |].
  assert (Hnotin : ~ In k (dict_keys d)).
  { intros Hin. apply dict_contains_keys in Hin. congruence. }
  apply NoDup_rev in Hnd. rewrite <- (rev_involutive (dict_keys d ++ [k])).
  apply NoDup_rev. rewrite rev_app_distr. cbn. constructor; [| exact Hnd].
  rewrite <- in_rev. exact Hnotin.
Qed.

Lemma dict_set_Forall (P : string -> V -> Prop) d k v :
  Forall (fun item => P (fst item) (snd item)) d ->
  P k v ->
  Forall (fun item => P (fst item) (snd item)) (dict_set d k v).
Proof.
  intros Hall Hv. induction d as [| [k0 v0] d' IH]; cbn.
  - constructor; [exact Hv | constructor].
  - inversion Hall as [| ? ? Hhead Htail]; subst.
    destruct (String.eqb_spec k k0) as [-> | Hk].
    + constructor; [exact Hv | exact Htail].
    + constructor; [exact Hhead | exact (IH Htail)].
Qed.

Lemma dict_get_Forall (P : string -> V -> Prop) d k v :
  Forall (fun item => P (fst item) (snd item)) d ->
  dict_get d k = Some v -> P k v.
Proof.
  intros Hall Hget. apply dict_get_In in Hget.
  rewrite Forall_forall in Hall. exact (Hall (k, v) Hget).
Qed.
End DictFacts.

(** ** The registry *)

Lemma feed_name (ms : list Measurement) :
  forall self, name (feed self ms) = name self.
Proof.
  induction ms as [| m ms' IH]; intros self; cbn; [reflexivity |].
  change (fold_left add ms' (add self m)) with (feed (add self m) ms').
  rewrite IH. reflexivity.
Qed.

Lemma feed_address (ms : list Measurement) :
  forall self, address (feed self ms) = address self.
Proof.
  induction ms as [| m ms' IH]; intros self; cbn; [reflexivity |].
  change (fold_left add ms' (add self m)) with (feed (add self m) ms').
  rewrite IH. reflexivity.
Qed.

Lemma address_after_again (old given : option string) :
  address_after (Some (address_after old given)) given = address_after old given.
Proof.
  unfold address_after. cbv zeta.
  destruct given as [a |]; [destruct (str_truthy a) |]; reflexivity.
Qed.

Section RegistryFacts.
Context `{Parsers}.

(** The monitor [update_monitor] leaves under [log_name]: the monitor it
    started from, fed with the records of the log. *)
Lemma update_monitor_get (self : LogParser) (dir : Directory)
    (log_name : string) (addr : option string) :
  exists start,
    dict_get (monitors (update_monitor self dir log_name addr)) log_name
    = Some (feed start (map measurement_of_log (parse_log_file dir log_name 600))) /\
    history start = history_of self log_name /\
    address start = address_after (address_of self log_name) addr /\
    name start
    = match dict_get (monitors self) log_name with
      | Some m => name m
      | None => log_name
      end.
Proof.
  unfold update_monitor. cbv zeta. cbn [monitors].
  rewrite dict_get_set, fold_add_entry.
  eexists. split; [reflexivity |].
  unfold history_of, address_of, address_after, dict_contains.
  destruct (dict_get (monitors self) log_name) as [m0 |] eqn:Hget;
    cbn [is_not_None option_map].
  - rewrite Hget.
    destruct addr as [a |]; [destruct (str_truthy a) |]; repeat split.
  - rewrite dict_get_set.
    destruct addr as [a |]; [destruct (str_truthy a) |]; repeat split.
Qed.

Lemma update_monitor_other (self : LogParser) (dir : Directory)
    (log_name : string) (addr : option string) (k : string) :
  k <> log_name ->
  dict_get (monitors (update_monitor self dir log_name addr)) k
  = dict_get (monitors self) k.
Proof.
  intros Hne. unfold update_monitor. cbv zeta. cbn [monitors].
  rewrite dict_get_set_other by exact Hne.
  destruct (dict_contains (monitors self) log_name); [reflexivity |].
  apply dict_get_set_other, Hne.
Qed.

Lemma update_monitor_keys (self : LogParser) (dir : Directory)
    (log_name : string) (addr : option string) :
  dict_keys (monitors (update_monitor self dir log_name addr))
  = if dict_contains (monitors self) log_name
    then dict_keys (monitors self)
    else dict_keys (monitors self) ++ [log_name].
Proof.
  unfold update_monitor. cbv zeta. cbn [monitors].
  rewrite dict_keys_set.
  destruct (dict_contains (monitors self) log_name) eqn:Hc.
  - rewrite Hc. reflexivity.
  - unfold dict_contains at 1. rewrite dict_get_set. cbn [is_not_None].
    rewrite dict_keys_set, Hc. reflexivity.
Qed.

Lemma update_monitor_ok (self : LogParser) (dir : Directory)
    (log_name : string) (addr : option string) :
  parser_ok self -> parser_ok (update_monitor self dir log_name addr).
Proof.
  intros [Hnd Hall].
  assert (Hfresh : forall a, str_truthy a = true ->
                             monitor_ok log_name (HostMonitor_init log_name a)).
  { intros a Ha. repeat split; [exact Ha | cbn; lia]. }
  assert (Hfed : forall start ms, monitor_ok log_name start ->
                                  monitor_ok log_name (feed start ms)).
  { intros start ms (Hn & Ha & Hh). repeat split.
    - rewrite feed_name. exact Hn.
    - rewrite feed_address. exact Ha.
    - apply (feed_history_bounded ms). exact Hh. }
  assert (Hset : forall m a, monitor_ok log_name m -> str_truthy a = true ->
                             monitor_ok log_name (set_address m a)).
  { intros m a (Hn & _ & Hh) Ha. repeat split; assumption. }
  unfold update_monitor. cbv zeta. rewrite fold_add_entry.
  set (fresh := HostMonitor_init log_name _).
  assert (Hfresh_ok : monitor_ok log_name fresh).
  { subst fresh. apply Hfresh.
    destruct addr as [a |]; [destruct (str_truthy a) eqn:Ha |]; auto. }
  set (monitors1 := if dict_contains (monitors self) log_name then _ else _).
  assert (Hok1 : NoDup (dict_keys monitors1) /\
                 Forall (fun item => monitor_ok (fst item) (snd item)) monitors1).
  { subst monitors1. destruct (dict_contains (monitors self) log_name).
    - split; assumption.
    - split; [apply dict_set_NoDup, Hnd |].
      apply (dict_set_Forall monitor_ok); assumption. }
  destruct Hok1 as [Hnd1 Hall1].
  split; cbn [monitors].
  - apply dict_set_NoDup, Hnd1.
  - apply (dict_set_Forall monitor_ok); [exact Hall1 |].
    apply Hfed.
    assert (Hm : monitor_ok log_name
                   match dict_get monitors1 log_name with
                   | Some m => m
                   | None => fresh
                   end).
    { destruct (dict_get monitors1 log_name) as [m |] eqn:Hget; [| exact Hfresh_ok].
      exact (dict_get_Forall monitor_ok _ _ _ Hall1 Hget). }
    destruct addr as [a |]; [destruct (str_truthy a) eqn:Ha |]; auto.
Qed.

Lemma update_all_monitors_ok (self : LogParser) (dir : Directory)
    (config_targets : dict string) :
  parser_ok self -> parser_ok (update_all_monitors self dir config_targets).
Proof.
  unfold update_all_monitors. revert self.
  induction (get_available_logs dir) as [| log_name logs IH]; intros self Hok; cbn.
  - exact Hok.
  - apply IH, update_monitor_ok, Hok.
Qed.

Lemma LogParser_init_ok : parser_ok LogParser_init.
Proof. split; cbn; constructor. Qed.

Lemma records_of_lines_is_loss (lines : list string) :
  Forall (fun e => le_is_loss e = PrimFloat.eqb (le_current e) 0)
    (records_of_lines lines).
Proof.
  unfold records_of_lines.
  induction lines as [| l ls IH]; cbn [flat_map]; [constructor |].
  apply Forall_app. split; [| exact IH].
  unfold record_of_line.
  destruct (split (strip l)) as [| p0 [| p1 [| p2 [| p3 [| p4 rest]]]]];
    try constructor.
  destruct (fromisoformat (p0 ++ " " ++ p1)), (py_float p2), (py_float p3),
    (py_int p4); constructor; try constructor.
Qed.

(** X8: what [parse_log_file] returns: nothing for a missing directory or
    file; else, for a positive [tail_lines], the records of the last
    [tail_lines] lines of the file in their order, so at most
    [min tail_lines (number of lines)] entries, each with
    [is_loss = (current == 0)]. *)
Theorem parse_log_file_recent (files : dict (list string)) (log_name : string)
    (tail_lines : Z) :
  parse_log_file None log_name tail_lines = [] /\
  (dict_get files log_name = None ->
   parse_log_file (Some files) log_name tail_lines = []) /\
  (forall lines,
     dict_get files log_name = Some lines ->
     0 < tail_lines ->
     parse_log_file (Some files) log_name tail_lines
     = records_of_lines (lastn (Z.to_nat tail_lines) lines) /\
     (length (parse_log_file (Some files) log_name tail_lines)
      <= Nat.min (Z.to_nat tail_lines) (length lines))%nat /\
     Forall (fun e => le_is_loss e = PrimFloat.eqb (le_current e) 0)
       (parse_log_file (Some files) log_name tail_lines)).
Proof.
  split; [reflexivity |]. split.
  - intros Hnone. unfold parse_log_file. rewrite Hnone. reflexivity.
  - intros lines Hget Hpos.
    assert (Heq : parse_log_file (Some files) log_name tail_lines
                  = records_of_lines (lastn (Z.to_nat tail_lines) lines)).
    { unfold parse_log_file. rewrite Hget. cbv zeta.
      rewrite parse_lines_records. f_equal.
      destruct (Z.ltb_spec tail_lines (Z.of_nat (length lines))) as [Hlong | Hshort].
      - apply py_slice_from_last. lia.
      - symmetry. apply lastn_all. lia. }
    rewrite Heq. split; [reflexivity |]. split.
    + rewrite <- (lastn_length (Z.to_nat tail_lines) lines).
      apply records_of_lines_length.
    + apply records_of_lines_is_loss.
Qed.
End RegistryFacts.

Lemma first_seen_prefix (names : list string) :
  forall ks, exists added, first_seen ks names = ks ++ added.
Proof.
  unfold first_seen.
  induction names as [| n names' IH]; intros ks; cbn [fold_left].
  - exists []. rewrite app_nil_r. reflexivity.
  - destruct (list_contains ks n).
    + apply IH.
    + destruct (IH (ks ++ [n])) as [added Hadded].
      exists (n :: added). rewrite Hadded, <- app_assoc. reflexivity.
Qed.

Section RefreshFacts.
Context `{Parsers}.

Lemma update_monitor_address_of (self : LogParser) (dir : Directory)
    (log_name : string) (addr : option string) (k : string) :
  address_of (update_monitor self dir log_name addr) k
  = if String.eqb k log_name
    then Some (address_after (address_of self k) addr)
    else address_of self k.
Proof.
  destruct (String.eqb_spec k log_name) as [-> | Hne].
  - destruct (update_monitor_get self dir log_name addr)
      as (start & Hget & _ & Haddr & _).
    unfold address_of at 1. rewrite Hget. cbn [option_map].
    rewrite feed_address, Haddr. reflexivity.
  - unfold address_of. rewrite update_monitor_other by exact Hne. reflexivity.
Qed.

(** X9: [update_monitor] touches one monitor only: every other name keeps
    the monitor it had; the monitor of [log_name] gets the address given
    when it is not empty, and else keeps its address, a new monitor taking
    ["unknown"]. *)
Theorem update_monitor_effect (self : LogParser) (dir : Directory)
    (log_name : string) (addr : option string) :
  (forall k,
     k <> log_name ->
     dict_get (monitors (update_monitor self dir log_name addr)) k
     = dict_get (monitors self) k) /\
  address_of (update_monitor self dir log_name addr) log_name
  = Some (address_after (address_of self log_name) addr) /\
  (forall a,
     addr = Some a -> str_truthy a = true ->
     address_of (update_monitor self dir log_name addr) log_name = Some a) /\
  (address_of self log_name = None ->
   (addr = None \/ addr = Some EmptyString) ->
   address_of (update_monitor self dir log_name addr) log_name
   = Some "unknown"%string).
Proof.
  assert (Haddr : address_of (update_monitor self dir log_name addr) log_name
                  = Some (address_after (address_of self log_name) addr)).
  { rewrite update_monitor_address_of, String.eqb_refl. reflexivity. }
  split; [| split; [exact Haddr | split]].
  - intros k Hne. apply update_monitor_other, Hne.
  - intros a -> Ha. rewrite Haddr. unfold address_after. cbv zeta.
    rewrite Ha. reflexivity.
  - intros Hnew Hgiven. rewrite Haddr, Hnew.
    destruct Hgiven as [-> | ->]; reflexivity.
Qed.

(** X10: after any sequence of refreshes of a new [LogParser] the names in
    the monitor table are distinct, and each monitor has the name it is
    stored under, an address that is not empty and at most 600 entries in
    its history. *)
Theorem registry_invariant (rs : list Refresh) :
  let lp := run_refreshes rs LogParser_init in
  NoDup (dict_keys (monitors lp)) /\
  (forall k m,
     dict_get (monitors lp) k = Some m ->
     name m = k /\
     str_truthy (address m) = true /\
     (length (history m) <= 600)%nat).
Proof.
  intros lp.
  assert (Hok : parser_ok lp).
  { subst lp. unfold run_refreshes.
    generalize LogParser_init_ok. generalize LogParser_init.
    induction rs as [| r rs' IH]; intros self Hself; cbn [fold_left].
    - exact Hself.
    - apply IH, update_all_monitors_ok, Hself. }
  destruct Hok as [Hnd Hall]. split; [exact Hnd |].
  intros k m Hget. exact (dict_get_Forall monitor_ok _ _ _ Hall Hget).
Qed.

Lemma refresh_fold_keys (dir : Directory) (config_targets : dict string)
    (logs : list string) :
  forall self,
    dict_keys
      (monitors
         (fold_left
            (fun lp k => update_monitor lp dir k (given_address config_targets k))
            logs self))
    = first_seen (dict_keys (monitors self)) logs.
Proof.
  unfold first_seen.
  induction logs as [| x logs' IH]; intros self; cbn [fold_left].
  - reflexivity.
  - rewrite IH, update_monitor_keys, dict_contains_list.
    destruct (list_contains (dict_keys (monitors self)) x); reflexivity.
Qed.

Lemma refresh_fold_other (dir : Directory) (config_targets : dict string)
    (logs : list string) (k : string) :
  ~ In k logs ->
  forall self,
    dict_get
      (monitors
         (fold_left
            (fun lp k => update_monitor lp dir k (given_address config_targets k))
            logs self)) k
    = dict_get (monitors self) k.
Proof.
  induction logs as [| x logs' IH]; intros Hnotin self; cbn [fold_left].
  - reflexivity.
  - rewrite IH by (intros Hin; apply Hnotin; right; exact Hin).
    apply update_monitor_other. intros ->. apply Hnotin. left. reflexivity.
Qed.

Lemma refresh_fold_address (dir : Directory) (config_targets : dict string)
    (logs : list string) (k : string) :
  forall self,
    address_of
      (fold_left
         (fun lp k => update_monitor lp dir k (given_address config_targets k))
         logs self) k
    = if list_contains logs k
      then Some (address_after (address_of self k) (given_address config_targets k))
      else address_of self k.
Proof.
  induction logs as [| x logs' IH]; intros self; cbn [fold_left].
  - reflexivity.
  - rewrite IH, update_monitor_address_of.
    unfold list_contains. cbn [existsb]. fold (list_contains logs' k).
    destruct (String.eqb_spec k x) as [-> | Hne]; cbn [orb].
    + destruct (list_contains logs' x); [| reflexivity].
      rewrite address_after_again. reflexivity.
    + reflexivity.
Qed.

Lemma update_all_monitors_fold (self : LogParser) (dir : Directory)
    (config_targets : dict string) :
  update_all_monitors self dir config_targets
  = fold_left
      (fun lp k => update_monitor lp dir k (given_address config_targets k))
      (get_available_logs dir) self.
Proof. reflexivity. Qed.

(** X11: a refresh creates a monitor for every log of the directory and
    removes none: the names of the table are the old names, in their old
    order, followed by the new log names in the order they are met; a
    monitor without a log is left as it was. *)
Theorem refresh_covers_logs (self : LogParser) (dir : Directory)
    (config_targets : dict string) :
  let after := update_all_monitors self dir config_targets in
  dict_keys (monitors after)
  = first_seen (dict_keys (monitors self)) (get_available_logs dir) /\
  (exists added, dict_keys (monitors after) = dict_keys (monitors self) ++ added) /\
  (forall k,
     In k (get_available_logs dir) -> dict_contains (monitors after) k = true) /\
  (forall k,
     dict_contains (monitors self) k = true ->
     dict_contains (monitors after) k = true) /\
  (forall k,
     ~ In k (get_available_logs dir) ->
     dict_get (monitors after) k = dict_get (monitors self) k).
Proof.
  intros after. subst after. rewrite update_all_monitors_fold.
  pose proof (refresh_fold_keys dir config_targets (get_available_logs dir) self)
    as Hkeys.
  destruct (first_seen_prefix (get_available_logs dir) (dict_keys (monitors self)))
    as [added Hadded].
  split; [exact Hkeys |]. split; [| split; [| split]].
  - exists added. rewrite Hkeys. exact Hadded.
  - intros k Hin.
    pose proof (refresh_fold_address dir config_targets (get_available_logs dir)
                  k self) as Haddr.
    apply list_contains_In in Hin. rewrite Hin in Haddr.
    unfold address_of, dict_contains in *.
    destruct (dict_get _ k); [reflexivity | discriminate].
  - intros k Hold. apply dict_contains_keys. rewrite Hkeys, Hadded.
    apply in_or_app. left. apply dict_contains_keys, Hold.
  - intros k Hnotin. apply refresh_fold_other, Hnotin.
Qed.

(** X12: after a refresh, a monitor that has a log carries the host the
    configuration gives for its name when that host is not empty, and
    ["unknown"] when the name is not configured, whatever address it had;
    with an empty configured host it keeps its address (["unknown"] for a
    new monitor); a monitor without a log keeps its address. *)
Theorem refresh_addresses (self : LogParser) (dir : Directory)
    (config_targets : dict string) (k : string) :
  let after := update_all_monitors self dir config_targets in
  (~ In k (get_available_logs dir) -> address_of after k = address_of self k) /\
  (In k (get_available_logs dir) ->
   (dict_get config_targets k = None -> address_of after k = Some "unknown"%string) /\
   (forall a,
      dict_get config_targets k = Some a -> str_truthy a = true ->
      address_of after k = Some a) /\
   (dict_get config_targets k = Some EmptyString ->
    address_of after k
    = Some match address_of self k with
           | Some old => old
           | None => "unknown"%string
           end)).
Proof.
  intros after. subst after. rewrite update_all_monitors_fold.
  rewrite refresh_fold_address. split.
  - intros Hnotin. apply list_contains_false in Hnotin. rewrite Hnotin. reflexivity.
  - intros Hin. apply list_contains_In in Hin. rewrite Hin.
    unfold given_address, address_after. cbv zeta. split; [| split].
    + intros ->. reflexivity.
    + intros a -> Ha. rewrite Ha. reflexivity.
    + intros ->. reflexivity.
Qed.
End RefreshFacts.

(** ** The rows of [/api/monitors] *)

Lemma fold_left_invariant {A B : Type} (f : A -> B -> A) (P : A -> Prop)
    (l : list B) :
  (forall a b, In b l -> P a -> P (f a b)) ->
  forall a, P a -> P (fold_left f l a).
Proof.
  induction l as [| b l' IH]; intros Hstep a Ha; cbn [fold_left].
  - exact Ha.
  - apply IH.
    + intros a' b' Hin. apply Hstep. right. exact Hin.
    + apply Hstep; [left; reflexivity | exact Ha].
Qed.





Lemma monitor_list_rows (config : option DeadmanConfig)
    (mons : dict HostMonitor) (time_range : Z) (now : datetime) :
  Forall
    (fun r =>
       exists m,
         In (r_name r, m) mons /\
         r = monitor_row (r_name r) m time_range now)
    (monitor_list config mons time_range now).
Proof.
  set (Q := fun r => exists m, In (r_name r, m) mons /\
                               r = monitor_row (r_name r) m time_range now).
  assert (Hitems : forall acc,
             Forall Q acc ->
             forall keep : string * HostMonitor -> bool,
               Forall Q
                 (fold_left
                    (fun acc item =>
                       if keep item
                       then acc ++ [monitor_row (fst item) (snd item) time_range now]
                       else acc)
                    mons acc)).
  { intros acc Hacc keep.
    apply (fold_left_invariant _ (Forall Q)); [| exact Hacc].
    intros a item Hin Ha. destruct (keep item); [| exact Ha].
    apply Forall_app. split; [exact Ha |]. constructor; [| constructor].
    exists (snd item). split; [| reflexivity].
    destruct item as [k m]. exact Hin. }
  unfold monitor_list. cbv zeta.
  destruct (is_not_None config && negb (Nat.eqb (length _) 0)).
  - match goal with
    | |- Forall Q (fold_left _ mons ?first) =>
        assert (Hfirst : Forall Q first)
    end.
    { apply (fold_left_invariant _ (Forall Q)); [| constructor].
      intros a nm _ Ha.
      destruct (dict_get mons nm) as [m |] eqn:Hget; [| exact Ha].
      apply Forall_app. split; [exact Ha |]. constructor; [| constructor].
      exists m. split; [apply dict_get_In, Hget | reflexivity]. }
    exact (Hitems _ Hfirst (fun item => negb (list_contains _ (fst item)))).
  - exact (Hitems [] (Forall_nil Q) (fun _ => true)).
Qed.



Lemma get_sparkline_data_length (self : HostMonitor) (time_range : Z) :
  (length (get_sparkline_data self time_range) <= length (history self))%nat.
Proof.
  destruct (get_sparkline_data_suffix self time_range) as [older Heq].
  apply (f_equal (@length Entry)) in Heq. rewrite length_app in Heq. lia.
Qed.

Lemma get_status_class_returns (self : HostMonitor) (now : Z) :
  naive_update self = true ->
  exists word,
    get_status_class self (Naive now) = Returns word /\
    In word ["unknown"; "stale"; "up"; "down"]%string.
Proof.
  unfold naive_update, get_status_class.
  destruct (last_update self) as [[t | t utcoffset] |]; cbn [datetime_sub].
  - intros _. destruct (timedelta_seconds 5 <? now - t).
    + eexists. split; [reflexivity | cbn; tauto].
    + destruct (is_online self); eexists; (split; [reflexivity | cbn; tauto]).
  - discriminate.
  - intros _. eexists. split; [reflexivity | cbn; tauto].
Qed.

Lemma get_status_class_raises (self : HostMonitor) (now : Z) :
  naive_update self = false ->
  get_status_class self (Naive now) = RaisesTypeError.
Proof.
  unfold naive_update, get_status_class.
  destruct (last_update self) as [[t | t utcoffset] |];
    [discriminate | reflexivity | discriminate].
Qed.

Lemma get_loss_rate_bounded (self : HostMonitor) :
  (length (history self) <= 600)%nat ->
  PrimFloat.leb 0 (get_loss_rate self) = true /\
  PrimFloat.leb (get_loss_rate self) 100 = true.
Proof.
  intros Hbound. unfold get_loss_rate.
  destruct (history self) as [| e h'] eqn:Hh; [split; reflexivity |].
  rewrite lost_measurements_count.
  assert (Hlen : (1 <= length (e :: h') <= 600)%nat) by (cbn in *; lia).
  pose proof (rate_ok_counts _ _ Hlen (count_loss_le (e :: h'))) as Hok.
  unfold rate_ok, rate_of_counts in Hok.
  apply andb_true_iff in Hok as [Hb _].
  apply andb_true_iff in Hb as [Hlow Hhigh].
  split; assumption.
Qed.

Section ServedFacts.
Context `{Parsers}.

(** X16: whatever refreshes came before, when no monitor of the table has
    a last time stamp with a UTC offset, every row that [/api/monitors]
    serves has a loss rate in [[0, 100]], one of the four status words, an
    address that is not empty and at most 600 sparkline entries. *)
Theorem served_rows_bounded (rs : list Refresh) (config : option DeadmanConfig)
    (dir : Directory) (time_range now : Z) :
  exists lp' rows,
    api_monitors config (Some (run_refreshes rs LogParser_init)) dir
      time_range (Naive now) = (Some lp', JsonRows rows) /\
    (Forall (fun item => naive_update (snd item) = true) (monitors lp') ->
     Forall
       (fun r =>
          PrimFloat.leb 0 (r_loss_rate r) = true /\
          PrimFloat.leb (r_loss_rate r) 100 = true /\
          (exists word,
             r_status r = Returns word /\
             In word ["unknown"; "stale"; "up"; "down"]%string) /\
          str_truthy (r_address r) = true /\
          (length (r_sparkline_data r) <= 600)%nat)
       rows).
Proof.
  unfold api_monitors. eexists. eexists. split; [reflexivity |].
  unfold get_all_monitors.
  set (lp' := update_all_monitors _ dir _).
  assert (Hok : parser_ok lp').
  { subst lp'. apply update_all_monitors_ok.
    unfold run_refreshes.
    generalize LogParser_init_ok. generalize LogParser_init.
    induction rs as [| r rs' IH]; intros self Hself; cbn [fold_left].
    - exact Hself.
    - apply IH, update_all_monitors_ok, Hself. }
  destruct Hok as [_ Hall]. rewrite Forall_forall in Hall.
  pose proof (monitor_list_rows config (monitors lp') time_range (Naive now))
    as Hrows.
  rewrite Forall_forall in Hrows.
  intros Hnaive. rewrite Forall_forall in Hnaive. apply Forall_forall.
  intros r Hin. destruct (Hrows r Hin) as (m & Hm & ->).
  destruct (Hall _ Hm) as (_ & Haddr & Hhist). cbn [fst snd] in Haddr, Hhist.
  cbn [monitor_row r_loss_rate r_status r_address r_sparkline_data].
  destruct (get_loss_rate_bounded m Hhist) as [Hlow Hhigh].
  split; [exact Hlow |]. split; [exact Hhigh |].
  split; [apply get_status_class_returns; exact (Hnaive _ Hm) |].
  split; [exact Haddr |].
  pose proof (get_sparkline_data_length m time_range). lia.
Qed.
End ServedFacts.

(** ** The routes [/api/monitor/<target>] and [/api/stats] *)

(** X17: the detail route answers 404 for a name without monitor; for a
    monitor whose last time stamp has no UTC offset it serves the last 180
    entries of the history at most, with their number as [history_count],
    and one of the four status words; for a monitor whose last time stamp
    has a UTC offset the request fails with the [TypeError] of
    [get_status_class]. *)
Theorem api_monitor_detail_spec (lp : LogParser) (target : string) (now : Z) :
  (dict_get (monitors lp) target = None ->
   api_monitor_detail (Some lp) target (Naive now)
   = DetailError ("Monitor " ++ target ++ " not found") 404) /\
  (forall m,
     dict_get (monitors lp) target = Some m ->
     naive_update m = true ->
     exists d,
       api_monitor_detail (Some lp) target (Naive now) = DetailOk d /\
       d_history d = lastn 180 (history m) /\
       d_history_count d = Z.min 180 (Z.of_nat (length (history m))) /\
       d_history_count d = Z.of_nat (length (d_history d)) /\
       get_status_class m (Naive now) = Returns (d_status d) /\
       In (d_status d) ["unknown"; "stale"; "up"; "down"]%string /\
       d_loss_rate d = get_loss_rate m) /\
  (forall m,
     dict_get (monitors lp) target = Some m ->
     naive_update m = false ->
     api_monitor_detail (Some lp) target (Naive now) = DetailTypeError).
Proof.
  unfold api_monitor_detail, get_all_monitors. split; [| split].
  - intros ->. reflexivity.
  - intros m -> Hnaive.
    destruct (get_status_class_returns m now Hnaive) as (word & Hword & Hin).
    rewrite Hword. eexists. split; [reflexivity |].
    cbn [d_history d_history_count d_status d_loss_rate].
    rewrite get_sparkline_data_positive by lia.
    assert (Hlast : lastn (Z.to_nat (Z.min 180 (Z.of_nat (length (history m)))))
                      (history m) = lastn 180 (history m)).
    { destruct (Z.le_gt_cases 180 (Z.of_nat (length (history m)))) as [Hle | Hgt].
      - rewrite Z.min_l by lia. reflexivity.
      - rewrite Z.min_r by lia. rewrite Nat2Z.id, !lastn_all by lia. reflexivity. }
    rewrite Hlast. repeat split; try assumption. rewrite lastn_length. lia.
  - intros m -> Haware. rewrite (get_status_class_raises m now Haware).
    reflexivity.
Qed.

Lemma count_status_raised (clock : nat -> Z) (word : string)
    (mons : dict HostMonitor) :
  fold_left (count_step clock word) mons RaisesTypeError = RaisesTypeError.
Proof. induction mons as [| item mons' IH]; [reflexivity | exact IH]. Qed.

Lemma count_step_naive (clock : nat -> Z) (now : Z) (word : string)
    (item : string * HostMonitor) (n : Z) (tick : nat) :
  (forall i, clock i = now) ->
  naive_update (snd item) = true ->
  exists tick',
    count_step clock word (Returns (n, tick)) item
    = Returns (if status_is word (snd item) (Naive now) then n + 1 else n, tick').
Proof.
  intros Hclock Hnaive.
  destruct (get_status_class_returns (snd item) now Hnaive) as (status & Hs & _).
  unfold count_step, status_at, status_is. rewrite Hclock, Hs.
  destruct (last_update (snd item)); eexists; reflexivity.
Qed.

Lemma count_step_aware (clock : nat -> Z) (word : string)
    (item : string * HostMonitor) (acc : outcome (Z * nat)) :
  naive_update (snd item) = false ->
  count_step clock word acc item = RaisesTypeError.
Proof.
  intros Haware. destruct acc as [[n tick] |]; [| reflexivity].
  unfold count_step, status_at.
  rewrite (get_status_class_raises (snd item) (clock tick) Haware).
  destruct (last_update (snd item)); reflexivity.
Qed.

Lemma count_status_constant (clock : nat -> Z) (now : Z) (word : string)
    (mons : dict HostMonitor) :
  (forall i, clock i = now) ->
  Forall (fun item => naive_update (snd item) = true) mons ->
  forall n tick,
    exists tick',
      fold_left (count_step clock word) mons (Returns (n, tick))
      = Returns (n + count_with_status now word mons, tick').
Proof.
  intros Hclock Hnaive. unfold count_with_status.
  induction Hnaive as [| item mons' Hitem _ IH]; intros n tick;
    cbn [fold_left filter].
  - exists tick. cbn. f_equal. f_equal. lia.
  - destruct (count_step_naive clock now word item n tick Hclock Hitem)
      as [t1 Hstep].
    rewrite Hstep.
    destruct (status_is word (snd item) (Naive now)).
    + destruct (IH (n + 1) t1) as [tick' Htick']. exists tick'.
      rewrite Htick'. cbn [length]. f_equal. f_equal. lia.
    + apply IH.
Qed.

Lemma count_status_aware (clock : nat -> Z) (word : string)
    (mons : dict HostMonitor) :
  Exists (fun item => naive_update (snd item) = false) mons ->
  forall acc, fold_left (count_step clock word) mons acc = RaisesTypeError.
Proof.
  induction 1 as [item mons' Haware | item mons' _ IH]; intros acc;
    cbn [fold_left].
  - rewrite (count_step_aware clock word item acc Haware).
    apply count_status_raised.
  - apply IH.
Qed.

Lemma count_with_status_partition (now : Z) (mons : dict HostMonitor) :
  Forall (fun item => naive_update (snd item) = true) mons ->
  count_with_status now "up" mons + count_with_status now "down" mons
  + count_with_status now "stale" mons + count_with_status now "unknown" mons
  = Z.of_nat (length mons).
Proof.
  unfold count_with_status.
  induction 1 as [| item mons' Hitem _ IH]; [reflexivity |].
  cbn [filter length].
  destruct (get_status_class_returns (snd item) now Hitem)
    as (status & Hs & Hword).
  assert (Hsi : forall word,
             status_is word (snd item) (Naive now) = String.eqb status word)
    by (intros word; unfold status_is; rewrite Hs; reflexivity).
  rewrite !Hsi.
  destruct Hword as [<- | [<- | [<- | [<- | []]]]];
    cbn [String.eqb Ascii.eqb Bool.eqb andb length]; lia.
Qed.

(** X18: when no monitor has a last time stamp with a UTC offset and the
    clock does not move during the request, [/api/stats] counts every
    monitor once: the up, down and stale counts are the numbers of
    monitors with that status, the unknown count obtained by subtraction is
    the number of monitors without any sample, no count is negative, and
    an empty table gives an average loss rate of [0.0]; when some monitor
    has a last time stamp with a UTC offset, the request fails with the
    [TypeError] of [get_status_class]. *)
Theorem api_stats_consistent (float_sum : list float -> float)
    (clock : nat -> Z) (now : Z) (lp : LogParser) :
  (Forall (fun item => naive_update (snd item) = true) (monitors lp) ->
   (forall i, clock i = now) ->
   exists st,
     api_stats float_sum clock (Some lp) = StatsOk st /\
     total_hosts st = Z.of_nat (length (monitors lp)) /\
     up_hosts st = count_with_status now "up" (monitors lp) /\
     down_hosts st = count_with_status now "down" (monitors lp) /\
     stale_hosts st = count_with_status now "stale" (monitors lp) /\
     unknown_hosts st = count_with_status now "unknown" (monitors lp) /\
     unknown_hosts st
     = Z.of_nat
         (length (filter (fun item => negb (is_not_None (last_update (snd item))))
                    (monitors lp))) /\
     0 <= unknown_hosts st /\
     (monitors lp = [] -> average_loss_rate st = 0%float)) /\
  (Exists (fun item => naive_update (snd item) = false) (monitors lp) ->
   api_stats float_sum clock (Some lp) = StatsTypeError).
Proof.
  split.
  - intros Hnaive Hclock. unfold api_stats, get_all_monitors, count_status.
    destruct (count_status_constant clock now "up" (monitors lp) Hclock Hnaive
                0 0%nat) as [t1 Hup].
    rewrite Hup.
    destruct (count_status_constant clock now "down" (monitors lp) Hclock Hnaive
                0 t1) as [t2 Hdown].
    rewrite Hdown.
    destruct (count_status_constant clock now "stale" (monitors lp) Hclock Hnaive
                0 t2) as [t3 Hstale].
    rewrite Hstale.
    pose proof (count_with_status_partition now (monitors lp) Hnaive) as Hpart.
    assert (Hunknown : count_with_status now "unknown" (monitors lp)
                       = Z.of_nat
                           (length
                              (filter
                                 (fun item =>
                                    negb (is_not_None (last_update (snd item))))
                                 (monitors lp)))).
    { unfold count_with_status. do 2 f_equal. apply filter_ext.
      intros item. unfold status_is, get_status_class.
      destruct (last_update (snd item)) as [[t | t utcoffset] |];
        cbn [datetime_sub]; [| reflexivity | reflexivity].
      destruct (timedelta_seconds 5 <? now - t); [reflexivity |].
      destruct (is_online (snd item)); reflexivity. }
    eexists. split; [reflexivity |].
    cbn [total_hosts up_hosts down_hosts stale_hosts unknown_hosts
         average_loss_rate].
    repeat split; try lia.
    intros ->. reflexivity.
  - intros Haware. unfold api_stats, get_all_monitors.
    unfold count_status.
    rewrite (count_status_aware clock "up" (monitors lp) Haware).
    reflexivity.
Qed.

(** X19: when the clock moves during the request a monitor can be counted
    twice: a single monitor that is up at the first reading of the clock
    and stale at the third is counted as up and as stale, and the unknown
    count is [-1]. *)
Theorem api_stats_double_count (float_sum : list float -> float)
    (clock : nat -> Z) (k : string) (m : HostMonitor) (t : Z) :
  last_update m = Some (Naive t) ->
  PrimFloat.ltb 0 (last_current m) = true ->
  clock 0%nat - t <= 5 * 1000000 ->
  5 * 1000000 < clock 2%nat - t ->
  exists st,
    api_stats float_sum clock (Some {| monitors := [(k, m)] |}) = StatsOk st /\
    total_hosts st = 1 /\
    up_hosts st = 1 /\
    down_hosts st = 0 /\
    stale_hosts st = 1 /\
    unknown_hosts st = -1.
Proof.
  intros Hlu Hpos Hfresh Hlate.
  assert (Hup : get_status_class m (Naive (clock 0%nat)) = Returns "up"%string).
  { rewrite (get_status_class_naive_update m t _ Hlu), Hpos.
    destruct (Z.ltb_spec (5 * 1000000) (clock 0%nat - t)); [lia | reflexivity]. }
  assert (Hstale : get_status_class m (Naive (clock 2%nat))
                   = Returns "stale"%string).
  { rewrite (get_status_class_naive_update m t _ Hlu).
    destruct (Z.ltb_spec (5 * 1000000) (clock 2%nat - t)); [reflexivity | lia]. }
  assert (Hmid : exists status,
             get_status_class m (Naive (clock 1%nat)) = Returns status /\
             String.eqb status "down" = false).
  { rewrite (get_status_class_naive_update m t _ Hlu), Hpos.
    destruct (5 * 1000000 <? clock 1%nat - t); eexists; split; reflexivity. }
  destruct Hmid as (status & Hmid & Hnotdown).
  unfold api_stats, get_all_monitors, count_status, count_step, status_at.
  cbn [monitors fold_left snd fst]. rewrite Hlu.
  rewrite Hup. cbn [String.eqb Ascii.eqb Bool.eqb andb].
  rewrite Hmid, Hnotdown, Hstale. cbn [String.eqb Ascii.eqb Bool.eqb andb].
  eexists. split; [reflexivity |]. repeat split.
Qed.

(** ** The configuration file *)

Lemma lstrip_head (s : string) :
  starts_with_space (lstrip s) = false.
Proof.
  induction s as [| c s' IH]; cbn; [reflexivity |].
  destruct (isspace c) eqn:Hc; [exact IH | cbn; exact Hc].
Qed.

Lemma lstrip_suffix (s : string) :
  exists p, list_ascii_of_string s = p ++ list_ascii_of_string (lstrip s).
Proof.
  induction s as [| c s' IH]; cbn.
  - exists []. reflexivity.
  - destruct (isspace c).
    + destruct IH as [p Hp]. exists (c :: p). cbn. rewrite Hp. reflexivity.
    + exists []. reflexivity.
Qed.

(** A stripped string does not begin with white space. *)
Lemma strip_head (s : string) : starts_with_space (strip s) = false.
Proof.
  unfold strip, str_reverse.
  destruct (lstrip_suffix
              (string_of_list_ascii (rev (list_ascii_of_string (lstrip s)))))
    as [p Hp].
  rewrite list_ascii_of_string_of_list_ascii in Hp.
  apply (f_equal (@rev ascii)) in Hp.
  rewrite rev_involutive, rev_app_distr in Hp.
  destruct (rev (list_ascii_of_string (lstrip _))) as [| c r] eqn:Hrev.
  - reflexivity.
  - cbn [string_of_list_ascii starts_with_space].
    pose proof (lstrip_head s) as Hhead.
    rewrite <- (string_of_list_ascii_of_string (lstrip s)), Hp in Hhead.
    cbn in Hhead. exact Hhead.
Qed.

Lemma str_contains_char_app (c : ascii) (s1 s2 : string) :
  str_contains_char c (s1 ++ s2)
  = str_contains_char c s1 || str_contains_char c s2.
Proof.
  induction s1 as [| c1 s1' IH]; cbn; [reflexivity |].
  rewrite IH, orb_assoc. reflexivity.
Qed.

Lemma str_truthy_app_char (s : string) (c : ascii) :
  str_truthy (s ++ String c EmptyString) = true.
Proof. destruct s; reflexivity. Qed.

Lemma split_on_from_length (sep : ascii) (s : string) :
  forall word, (1 <= length (split_on_from sep word s))%nat.
Proof.
  induction s as [| c s' IH]; intros word; cbn; [lia |].
  destruct (Ascii.eqb c sep); [cbn; lia | apply IH].
Qed.

(** A string that holds the separator is cut in two pieces at least. *)
Lemma split_on_from_two (sep : ascii) (s : string) :
  forall word,
    str_contains_char sep s = true ->
    (2 <= length (split_on_from sep word s))%nat.
Proof.
  induction s as [| c s' IH]; intros word; cbn; [discriminate |].
  rewrite (Ascii.eqb_sym sep c).
  destruct (Ascii.eqb c sep); cbn.
  - intros _. pose proof (split_on_from_length sep s' EmptyString). lia.
  - apply IH.
Qed.

(** No piece holds the separator. *)
Lemma split_on_from_pieces (sep : ascii) (s : string) :
  forall word,
    str_contains_char sep word = false ->
    Forall (fun p => str_contains_char sep p = false) (split_on_from sep word s).
Proof.
  induction s as [| c s' IH]; intros word Hword; cbn.
  - constructor; [exact Hword | constructor].
  - destruct (Ascii.eqb c sep) eqn:Hc.
    + constructor; [exact Hword | apply IH; reflexivity].
    + apply IH. rewrite str_contains_char_app, Hword. cbn.
      rewrite (Ascii.eqb_sym sep c), Hc. reflexivity.
Qed.

(** The first piece is not empty when the piece being read is not. *)
Lemma split_on_from_first (sep : ascii) (s : string) :
  forall word,
    str_truthy word = true ->
    str_truthy (nth 0 (split_on_from sep word s) EmptyString) = true.
Proof.
  induction s as [| c s' IH]; intros word Hword; cbn.
  - exact Hword.
  - destruct (Ascii.eqb c sep); [exact Hword |].
    apply IH, str_truthy_app_char.
Qed.

Lemma nth_Forall {A : Type} (P : A -> Prop) (l : list A) (i : nat) (d : A) :
  Forall P l -> P d -> P (nth i l d).
Proof.
  intros Hall Hd. revert i.
  induction Hall as [| x l' Hx _ IH]; intros [| i']; cbn; auto.
Qed.

Lemma parse_config_line_spec (self : DeadmanConfig) (line : string) :
  parse_config_line self line
  = if defines_target line
    then {| targets := dict_set (targets self) (target_name line) (target_host line);
            target_order := target_order self ++ [target_name line] |}
    else self.
Proof.
  unfold parse_config_line, defines_target, target_name, target_host, split_on.
  cbv zeta.
  destruct (str_contains_char TAB (strip line)) eqn:Htab.
  - destruct (strip line) as [| c s'] eqn:Hline; [discriminate |].
    cbn [str_truthy andb].
    pose proof (split_on_from_two TAB (String c s') EmptyString Htab) as Hlen.
    destruct (Nat.leb_spec 2 (length (split_on_from TAB EmptyString (String c s'))));
      [reflexivity | lia].
  - rewrite andb_false_r. reflexivity.
Qed.

Lemma parse_config_fold (lines : list string) :
  forall self,
    target_order (fold_left parse_config_line lines self)
    = target_order self ++ map target_name (filter defines_target lines) /\
    (forall n,
       dict_contains (targets (fold_left parse_config_line lines self)) n = true <->
       dict_contains (targets self) n = true \/
       In n (map target_name (filter defines_target lines))) /\
    (NoDup (dict_keys (targets self)) ->
     NoDup (dict_keys (targets (fold_left parse_config_line lines self)))).
Proof.
  induction lines as [| line lines' IH]; intros self; cbn [fold_left filter].
  - cbn [map]. rewrite app_nil_r. split; [reflexivity |]. split; [| auto].
    intros n. cbn. tauto.
  - destruct (IH (parse_config_line self line)) as (Horder & Hkeys & Hnd).
    rewrite Horder. rewrite parse_config_line_spec in *.
    destruct (defines_target line); cbn [targets target_order map].
    + split; [rewrite <- app_assoc; reflexivity |]. split.
      * intros n. rewrite Hkeys. cbn [targets].
        rewrite !dict_contains_keys, dict_keys_set.
        destruct (dict_contains (targets self) (target_name line)) eqn:Hc.
        -- apply dict_contains_keys in Hc. cbn [In]. split.
           ++ intros [Hin | Hin]; auto.
           ++ intros [Hin | [<- | Hin]]; auto.
        -- rewrite in_app_iff. cbn [In]. tauto.
      * intros Hself. apply Hnd. cbn [targets]. apply dict_set_NoDup, Hself.
    + split; [reflexivity |]. split; [exact Hkeys | exact Hnd].
Qed.

(** X20: the configuration read from a file: no file gives no target; the
    names of [target_order] are exactly the keys of [targets]; [targets]
    holds each name once, while [target_order] lists a name once for every
    line that defines it. *)
Theorem config_order_and_targets (file : option (list string)) :
  let c := DeadmanConfig_init file in
  (file = None -> targets c = [] /\ target_order c = []) /\
  (forall lines,
     file = Some lines ->
     target_order c = map target_name (filter defines_target lines)) /\
  (forall n, In n (target_order c) <-> dict_contains (targets c) n = true) /\
  NoDup (dict_keys (targets c)).
Proof.
  intros c. subst c. destruct file as [lines |]; cbn [DeadmanConfig_init].
  - destruct (parse_config_fold lines {| targets := []; target_order := [] |})
      as (Horder & Hkeys & Hnd).
    cbn [target_order targets app] in Horder, Hkeys, Hnd.
    split; [discriminate |]. split; [| split].
    + intros lines' [= <-]. exact Horder.
    + intros n. rewrite Horder, Hkeys. cbn. intuition discriminate.
    + apply Hnd. constructor.
  - split; [auto |]. split; [discriminate |]. split; [| constructor].
    intros n. cbn. intuition discriminate.
Qed.

(** X21: every line that still holds a tab once stripped defines a target,
    the test on the number of fields never fails; the name it gives is
    not empty, holds no tab and does not begin with white space, and the
    host holds no tab. *)
Theorem config_names_wellformed (line : string) (self : DeadmanConfig) :
  defines_target line = true ->
  parse_config_line self line
  = {| targets := dict_set (targets self) (target_name line) (target_host line);
       target_order := target_order self ++ [target_name line] |} /\
  str_truthy (target_name line) = true /\
  starts_with_space (target_name line) = false /\
  str_contains_char TAB (target_name line) = false /\
  str_contains_char TAB (target_host line) = false.
Proof.
  intros Hdef. rewrite parse_config_line_spec, Hdef.
  split; [reflexivity |].
  unfold target_name, target_host, split_on.
  pose proof (strip_head line) as Hhead.
  unfold defines_target in Hdef.
  assert (Hpieces : Forall (fun p => str_contains_char TAB p = false)
                      (split_on_from TAB EmptyString (strip line)))
    by (apply split_on_from_pieces; reflexivity).
  destruct (strip line) as [| c s'] eqn:Hline; [discriminate |].
  cbn [starts_with_space] in Hhead.
  assert (Hc : Ascii.eqb c TAB = false).
  { destruct (Ascii.eqb_spec c TAB) as [-> | Hne]; [| reflexivity].
    vm_compute in Hhead. discriminate. }
  split; [| split; [| split]].
  - cbn [split_on_from]. rewrite Hc.
    apply split_on_from_first. reflexivity.
  - cbn [split_on_from]. rewrite Hc. cbn [append].
    assert (Hfirst : forall s word,
               starts_with_space word = false -> str_truthy word = true ->
               starts_with_space (nth 0 (split_on_from TAB word s) EmptyString)
               = false).
    { induction s as [| c0 s0 IH]; intros word Hw Ht; cbn [split_on_from].
      - exact Hw.
      - destruct (Ascii.eqb c0 TAB); [exact Hw |].
        apply IH; [| apply str_truthy_app_char].
        destruct word; [discriminate | exact Hw]. }
    apply Hfirst; [exact Hhead | reflexivity].
  - apply nth_Forall; [exact Hpieces | reflexivity].
  - apply nth_Forall; [exact Hpieces | reflexivity].
Qed.

(** X22: a later line for a name replaces the host of that name in
    [targets] and adds the name to [target_order] once more; a line that
    defines no target changes nothing. *)
Theorem config_last_line_wins (lines : list string) (line : string) :
  let before := DeadmanConfig_init (Some lines) in
  let c := DeadmanConfig_init (Some (lines ++ [line])) in
  (defines_target line = false -> c = before) /\
  (defines_target line = true ->
   dict_get (targets c) (target_name line) = Some (target_host line) /\
   target_order c = target_order before ++ [target_name line] /\
   (forall n,
      n <> target_name line ->
      dict_get (targets c) n = dict_get (targets before) n)).
Proof.
  cbv zeta. cbn [DeadmanConfig_init]. rewrite fold_left_app. cbn [fold_left].
  rewrite parse_config_line_spec. split.
  - intros ->. reflexivity.
  - intros ->. cbn [targets target_order]. split; [apply dict_get_set |].
    split; [reflexivity |].
    intros n Hne. apply dict_get_set_other, Hne.
Qed.

(** ** Loss marks *)

Lemma entries_from_marks (ms : list Measurement) :
  forall self prev,
    prev_current self = option_map m_current prev ->
    prev_average self = option_map m_average prev ->
    map is_loss (entries_from self ms) = loss_marks prev ms.
Proof.
  induction ms as [| m ms' IH]; intros self prev Hc Ha; cbn [entries_from map loss_marks].
  - reflexivity.
  - f_equal.
    + cbn [entry_of is_loss]. rewrite loss_check_rule, Hc, Ha. reflexivity.
    + apply IH; reflexivity.
Qed.

Lemma feed_prev (nm addr : string) (ms : list Measurement) :
  prev_current (feed (HostMonitor_init nm addr) ms)
  = option_map m_current (last_measurement ms) /\
  prev_average (feed (HostMonitor_init nm addr) ms)
  = option_map m_average (last_measurement ms).
Proof.
  unfold last_measurement.
  destruct ms as [| m ms'] using rev_ind; [split; reflexivity |].
  rewrite feed_snoc, map_app. cbn [map]. rewrite last_last. split; reflexivity.
Qed.

(** X23: the loss mark of an entry depends only on its measurement and on
    the measurement fed just before it: the marks of the history of a
    monitor are the last 600 of the marks of the consecutive pairs of
    what it was fed, and feeding more after [ms1] marks the new entries by
    comparing each with its predecessor, the first with the last of
    [ms1]. *)
Theorem loss_marks_pairwise (nm addr : string) (ms1 ms2 : list Measurement) :
  let w := feed (HostMonitor_init nm addr) ms1 in
  map is_loss (history w) = lastn 600 (loss_marks None ms1) /\
  map is_loss (entries_from w ms2) = loss_marks (last_measurement ms1) ms2 /\
  map is_loss (history (feed w ms2))
  = lastn 600 (map is_loss (history w) ++ loss_marks (last_measurement ms1) ms2).
Proof.
  intros w.
  destruct (feed_prev nm addr ms1) as [Hc Ha]. fold w in Hc, Ha.
  assert (Hnew : map is_loss (entries_from w ms2)
                 = loss_marks (last_measurement ms1) ms2)
    by (apply entries_from_marks; assumption).
  split; [| split; [exact Hnew |]].
  - subst w. rewrite feed_history by apply init_history_bounded.
    cbn [history HostMonitor_init app].
    rewrite <- lastn_map. f_equal. apply entries_from_marks; reflexivity.
  - rewrite feed_history
      by (apply (feed_history_bounded ms1), init_history_bounded).
    rewrite <- lastn_map, map_app, Hnew. reflexivity.
Qed.

(** ** Examples for the further properties *)

Lemma parse_log_file_recent_witness :
  dict_get sample_files "B"%string
  = Some ["19000 1 5 5 1"%string; "19000 2 5 5"%string; "19000 3 5 5 x"%string; "19000 4 6 6 4"%string]%string /\
  0 < 2 /\
  parse_log_file (H := sample_parsers) (Some sample_files) "B"%string 2
  = records_of_lines (H := sample_parsers) ["19000 3 5 5 x"%string; "19000 4 6 6 4"%string]%string /\
  (length (parse_log_file (H := sample_parsers) (Some sample_files) "B"%string 2) <= 2)%nat.
Proof.
  assert (Hget : dict_get sample_files "B"%string
                 = Some ["19000 1 5 5 1"%string; "19000 2 5 5"%string; "19000 3 5 5 x"%string;
                         "19000 4 6 6 4"%string]%string) by reflexivity.
  assert (Hpos : 0 < 2) by lia.
  destruct (parse_log_file_recent (H := sample_parsers) sample_files "B"%string 2)
    as (_ & _ & Hrecent).
  destruct (Hrecent _ Hget Hpos) as (Heq & Hlen & _).
  split; [exact Hget |]. split; [exact Hpos |].
  split; [exact Heq | exact Hlen].
Defined.

Lemma update_monitor_effect_witness :
  "C"%string <> "B"%string /\
  dict_get
    (monitors (update_monitor (H := sample_parsers) sample_parser sample_dir "B"%string
                 (Some "10.0.0.1"%string))) "C"%string
  = dict_get (monitors sample_parser) "C"%string /\
  str_truthy "10.0.0.1"%string = true /\
  address_of
    (update_monitor (H := sample_parsers) sample_parser sample_dir "B"%string
       (Some "10.0.0.1"%string)) "B"%string
  = Some "10.0.0.1"%string.
Proof.
  assert (Hne : "C"%string <> "B"%string) by discriminate.
  destruct (update_monitor_effect (H := sample_parsers) sample_parser sample_dir
              "B"%string (Some "10.0.0.1"%string)) as (Hother & _ & Hgiven & _).
  split; [exact Hne |]. split; [exact (Hother "C"%string Hne) |].
  split; [reflexivity |]. exact (Hgiven "10.0.0.1"%string eq_refl eq_refl).
Defined.

Lemma registry_invariant_witness :
  exists m,
    dict_get
      (monitors
         (run_refreshes (H := sample_parsers)
            [(sample_dir, targets sample_config); (sample_dir, [])]
            LogParser_init)) "B"%string = Some m /\
    name m = "B"%string /\
    str_truthy (address m) = true /\
    (length (history m) <= 600)%nat.
Proof.
  destruct (registry_invariant (H := sample_parsers)
              [(sample_dir, targets sample_config); (sample_dir, [])])
    as [_ Hinv].
  destruct (dict_get
              (monitors
                 (run_refreshes (H := sample_parsers)
                    [(sample_dir, targets sample_config); (sample_dir, [])]
                    LogParser_init)) "B"%string) as [m |] eqn:Hget.
  - exists m. split; [reflexivity |]. exact (Hinv "B"%string m Hget).
  - vm_compute in Hget. discriminate.
Defined.

Lemma refresh_covers_logs_witness :
  In "C"%string (get_available_logs sample_dir) /\
  dict_contains
    (monitors (update_all_monitors (H := sample_parsers) LogParser_init
                 sample_dir [])) "C"%string = true /\
  ~ In "A"%string (get_available_logs sample_dir) /\
  dict_get
    (monitors (update_all_monitors (H := sample_parsers) LogParser_init
                 sample_dir [])) "A"%string = None.
Proof.
  assert (HinC : In "C"%string (get_available_logs sample_dir))
    by (cbn; auto).
  assert (HnotA : ~ In "A"%string (get_available_logs sample_dir))
    by (cbn; intros [Hb | [Hc | []]]; discriminate).
  destruct (refresh_covers_logs (H := sample_parsers) LogParser_init sample_dir [])
    as (_ & _ & Hlogs & _ & Hother).
  split; [exact HinC |]. split; [exact (Hlogs "C"%string HinC) |].
  split; [exact HnotA |]. exact (Hother "A"%string HnotA).
Defined.

Lemma refresh_addresses_witness :
  In "B"%string (get_available_logs sample_dir) /\
  dict_get (targets sample_config) "B"%string = Some "2.2.2.2"%string /\
  address_of sample_parser "B"%string = Some "2.2.2.2"%string /\
  dict_get (targets sample_config) "C"%string = None /\
  address_of sample_parser "C"%string = Some "unknown"%string.
Proof.
  assert (HinB : In "B"%string (get_available_logs sample_dir)) by (cbn; auto).
  assert (HinC : In "C"%string (get_available_logs sample_dir)) by (cbn; auto).
  destruct (refresh_addresses (H := sample_parsers) LogParser_init sample_dir
              (targets sample_config) "B"%string) as [_ HB].
  destruct (refresh_addresses (H := sample_parsers) LogParser_init sample_dir
              (targets sample_config) "C"%string) as [_ HC].
  destruct (HB HinB) as (_ & Hconf & _). destruct (HC HinC) as (Hnone & _).
  split; [exact HinB |]. split; [reflexivity |].
  split; [exact (Hconf "2.2.2.2"%string eq_refl eq_refl) |].
  split; [reflexivity |]. exact (Hnone eq_refl).
Defined.





Lemma sample_parser_naive :
  Forall (fun item => naive_update (snd item) = true) (monitors sample_parser).
Proof. vm_compute. repeat constructor. Qed.

Lemma served_rows_bounded_witness :
  Forall (fun item => naive_update (snd item) = true)
    (monitors
       (update_all_monitors (H := sample_parsers)
          (run_refreshes (H := sample_parsers) [] LogParser_init) sample_dir
          (targets sample_config))) /\
  exists lp' rows,
    api_monitors (H := sample_parsers) (Some sample_config)
      (Some (run_refreshes (H := sample_parsers) [] LogParser_init)) sample_dir
      180 (Naive 0) = (Some lp', JsonRows rows) /\
    Forall
      (fun r =>
         PrimFloat.leb (r_loss_rate r) 100 = true /\
         exists word, r_status r = Returns word)
      rows.
Proof.
  split; [exact sample_parser_naive |].
  destruct (served_rows_bounded (H := sample_parsers) [] (Some sample_config)
              sample_dir 180 0) as (lp' & rows & Heq & Hbounds).
  exists lp', rows. split; [exact Heq |].
  assert (Hlp : monitors lp' = monitors sample_parser).
  { unfold api_monitors in Heq. injection Heq as Hlp _. rewrite <- Hlp.
    reflexivity. }
  rewrite Hlp in Hbounds.
  eapply Forall_impl; [| exact (Hbounds sample_parser_naive)].
  intros r (_ & Hhigh & (word & Hword & _) & _).
  split; [exact Hhigh |]. exists word. exact Hword.
Defined.

Lemma api_monitor_detail_spec_witness :
  dict_get (monitors sample_parser) "A"%string = None /\
  api_monitor_detail (Some sample_parser) "A"%string (Naive 0)
  = DetailError "Monitor A not found"%string 404 /\
  (exists m d,
     dict_get (monitors sample_parser) "B"%string = Some m /\
     naive_update m = true /\
     api_monitor_detail (Some sample_parser) "B"%string (Naive 0) = DetailOk d /\
     d_history_count d = 2) /\
  (exists m,
     dict_get (monitors sample_offset_parser) "Z"%string = Some m /\
     naive_update m = false /\
     api_monitor_detail (Some sample_offset_parser) "Z"%string (Naive 0)
     = DetailTypeError).
Proof.
  destruct (api_monitor_detail_spec sample_parser "A"%string 0) as [Hmissing _].
  destruct (api_monitor_detail_spec sample_parser "B"%string 0)
    as (_ & Hfound & _).
  destruct (api_monitor_detail_spec sample_offset_parser "Z"%string 0)
    as (_ & _ & Hraises).
  assert (HA : dict_get (monitors sample_parser) "A"%string = None)
    by (vm_compute; reflexivity).
  split; [exact HA |]. split; [exact (Hmissing HA) |]. split.
  - destruct (dict_get (monitors sample_parser) "B"%string) as [m |] eqn:HB.
    + assert (Hm : Some m = dict_get (monitors sample_parser) "B"%string)
        by (symmetry; exact HB).
      vm_compute in Hm. injection Hm as Hm.
      assert (Hnaive : naive_update m = true) by (rewrite Hm; reflexivity).
      destruct (Hfound m eq_refl Hnaive) as (d & Hd & _ & Hcount & _).
      exists m, d. split; [reflexivity |]. split; [exact Hnaive |].
      split; [exact Hd |]. rewrite Hcount, Hm. reflexivity.
    + vm_compute in HB. discriminate.
  - eexists. split; [reflexivity |].
    assert (Haware : naive_update
                       (add_measurement (HostMonitor_init "Z" "unknown") 5 5 1
                          (Aware 0 3600000000)) = false) by reflexivity.
    split; [exact Haware |]. exact (Hraises _ eq_refl Haware).
Defined.

Lemma api_stats_consistent_witness :
  Forall (fun item => naive_update (snd item) = true) (monitors sample_parser) /\
  (forall i : nat, (fun _ : nat => 1641600005000000) i = 1641600005000000) /\
  (exists st,
     api_stats (fun _ => 0%float) (fun _ => 1641600005000000) (Some sample_parser)
     = StatsOk st /\
     total_hosts st = 2 /\
     up_hosts st = 1 /\
     down_hosts st = 1 /\
     unknown_hosts st = 0) /\
  Exists (fun item => naive_update (snd item) = false)
    (monitors sample_offset_parser) /\
  api_stats (fun _ => 0%float) (fun _ => 1641600005000000)
    (Some sample_offset_parser) = StatsTypeError.
Proof.
  assert (Hclock : forall i : nat,
             (fun _ : nat => 1641600005000000) i = 1641600005000000)
    by reflexivity.
  assert (Haware : Exists (fun item => naive_update (snd item) = false)
                     (monitors sample_offset_parser))
    by (left; reflexivity).
  split; [exact sample_parser_naive |]. split; [exact Hclock |]. split.
  - destruct (proj1 (api_stats_consistent (fun _ => 0%float)
                       (fun _ => 1641600005000000) 1641600005000000
                       sample_parser) sample_parser_naive Hclock)
      as (st & Hst & Htotal & Hup & Hdown & _ & Hunknown & _).
    exists st. split; [exact Hst |].
    rewrite Htotal, Hup, Hdown, Hunknown. vm_compute. repeat split.
  - split; [exact Haware |].
    exact (proj2 (api_stats_consistent (fun _ => 0%float)
                    (fun _ => 1641600005000000) 1641600005000000
                    sample_offset_parser) Haware).
Defined.

Lemma api_stats_double_count_witness :
  let m := add_measurement (HostMonitor_init "h"%string "a"%string) 3 3 1 0 in
  let clock := fun i : nat => 4999999 + Z.of_nat i in
  last_update m = Some (Naive 0) /\
  PrimFloat.ltb 0 (last_current m) = true /\
  clock 0%nat - 0 <= 5 * 1000000 /\
  5 * 1000000 < clock 2%nat - 0 /\
  exists st,
    api_stats (fun _ => 0%float) clock (Some {| monitors := [("h"%string, m)] |})
    = StatsOk st /\
    unknown_hosts st = -1.
Proof.
  cbv zeta.
  assert (Hlu : last_update (add_measurement (HostMonitor_init "h"%string "a"%string) 3 3 1 0)
                = Some (Naive 0)) by reflexivity.
  assert (Hpos : PrimFloat.ltb 0
                   (last_current
                      (add_measurement (HostMonitor_init "h"%string "a"%string) 3 3 1 0))
                 = true) by reflexivity.
  assert (Hfresh : 4999999 + Z.of_nat 0 - 0 <= 5 * 1000000) by (cbn; lia).
  assert (Hlate : 5 * 1000000 < 4999999 + Z.of_nat 2 - 0) by (cbn; lia).
  split; [exact Hlu |]. split; [exact Hpos |].
  split; [exact Hfresh |]. split; [exact Hlate |].
  destruct (api_stats_double_count (fun _ => 0%float)
              (fun i : nat => 4999999 + Z.of_nat i) "h"%string
              (add_measurement (HostMonitor_init "h"%string "a"%string) 3 3 1 0) 0
              Hlu Hpos Hfresh Hlate)
    as (st & Hst & _ & _ & _ & _ & Hunknown).
  exists st. split; [exact Hst | exact Hunknown].
Defined.

Lemma config_order_and_targets_witness :
  let c := DeadmanConfig_init (Some sample_config_file) in
  target_order c = ["A"%string; "B"%string; "A"%string]%string /\
  In "A"%string (target_order c) /\
  dict_contains (targets c) "A"%string = true /\
  DeadmanConfig_init None = {| targets := []; target_order := [] |}.
Proof.
  cbv zeta.
  destruct (config_order_and_targets (Some sample_config_file))
    as (_ & Horder & Hkeys & _).
  destruct (config_order_and_targets None) as (Hnone & _).
  assert (HinA : In "A"%string
                   (target_order (DeadmanConfig_init (Some sample_config_file)))).
  { rewrite (Horder sample_config_file eq_refl). vm_compute. auto. }
  split; [rewrite (Horder sample_config_file eq_refl); reflexivity |].
  split; [exact HinA |]. split; [exact (proj1 (Hkeys "A"%string) HinA) |].
  destruct (Hnone eq_refl) as [Ht Ho].
  destruct (DeadmanConfig_init None) as [t o]. cbn in Ht, Ho. subst. reflexivity.
Defined.

Lemma config_names_wellformed_witness :
  let line := ("  "%string ++ sample_line "web 1"%string "10.0.0.1"%string ++ String TAB "note"%string)%string in
  defines_target line = true /\
  target_name line = "web 1"%string /\
  str_truthy (target_name line) = true /\
  str_contains_char TAB (target_host line) = false.
Proof.
  cbv zeta.
  assert (Hdef : defines_target
                   ("  "%string ++ sample_line "web 1"%string "10.0.0.1"%string ++ String TAB "note"%string)
                 = true) by reflexivity.
  destruct (config_names_wellformed _ {| targets := []; target_order := [] |} Hdef)
    as (_ & Htruthy & _ & _ & Hhost).
  split; [exact Hdef |]. split; [reflexivity |].
  split; [exact Htruthy | exact Hhost].
Defined.

Lemma config_last_line_wins_witness :
  let lines := [sample_line "A"%string "1.1.1.1"%string; sample_line "B"%string "2.2.2.2"%string] in
  let line := sample_line "A"%string "9.9.9.9"%string in
  defines_target line = true /\
  dict_get (targets (DeadmanConfig_init (Some (lines ++ [line])))) "A"%string
  = Some "9.9.9.9"%string /\
  target_order (DeadmanConfig_init (Some (lines ++ [line])))
  = ["A"%string; "B"%string; "A"%string]%string.
Proof.
  cbv zeta.
  assert (Hdef : defines_target (sample_line "A"%string "9.9.9.9"%string) = true) by reflexivity.
  destruct (config_last_line_wins
              [sample_line "A"%string "1.1.1.1"%string; sample_line "B"%string "2.2.2.2"%string]
              (sample_line "A"%string "9.9.9.9"%string)) as [_ Hwins].
  destruct (Hwins Hdef) as (Hget & Horder & _).
  split; [exact Hdef |]. split; [exact Hget |].
  rewrite Horder. reflexivity.
Defined.
